(** * Data Sweeper: the per-file cleaning and conversion pipeline of [app.py]

    [app.py] is a Streamlit script: for every uploaded file it calls
    [process_file], which loads the file with pandas, normalises the column
    types, optionally removes duplicate rows and fills missing numeric cells
    with the column mean, projects the frame to the selected columns and, on
    demand, serialises it for download.

    The development follows the script top-down:
    - [Py]       the Python string primitives the script calls
                 ([str.lower], [str.replace], [os.path.splitext], [str()]);
    - [Pandas]   the data frame and the pandas primitives the script calls
                 ([convert_dtypes], [select_dtypes], [astype(str)],
                 [drop_duplicates], [mean], [fillna], [df[cols]], [to_csv]),
                 modelled after pandas 2.x;
    - [App]      [process_file] and the loop over [uploaded_files], with the
                 widgets' values passed in as a record of controls.

    Idealisations.  Text is a byte string (UTF-8); [lower] changes ASCII
    letters only, and the statements that depend on it are about ASCII
    names.  [os.path] is the POSIX one.  An integer cell is an integer, and
    the 64-bit range is checked where type inference depends on it.  A
    [float64] is an exact rational, so rounding is not modelled: the
    statements that depend on a mean are about columns of small integers,
    whose float64 sum is exact.  A float is written in positional notation.
    A run of the script is one call of [main] with the values the widgets
    return in that run; the frame is loaded anew in every run. *)

From Stdlib Require Import List String Ascii ZArith QArith Qcanon Bool Lia.
From Stdlib Require Import DecimalString.
Import ListNotations.

Local Open Scope list_scope.
Local Open Scope string_scope.

(** ** Python string primitives *)

Module Py.

Definition newline : string := String (ascii_of_nat 10) "".
Definition dquote : string := String (ascii_of_nat 34) "".

(** [unlines] writes a text given line by line, each line ended by a newline
    character. *)
Definition unlines (ls : list string) : string :=
  String.concat "" (map (fun l => l ++ newline) ls).

(** [str.lower], on ASCII letters. *)
Definition lower_ascii (c : ascii) : ascii :=
  let n := nat_of_ascii c in
  if andb (65 <=? n)%nat (n <=? 90)%nat then ascii_of_nat (n + 32) else c.

Fixpoint lower (s : string) : string :=
  match s with
  | EmptyString => EmptyString
  | String c s' => String (lower_ascii c) (lower s')
  end.

(** [s.rfind(c)] for a one-character [c]: the highest index of [c] in [s],
    or [-1]. *)
Fixpoint rfind_from (c : ascii) (s : string) (i acc : Z) : Z :=
  match s with
  | EmptyString => acc
  | String a s' => rfind_from c s' (i + 1) (if Ascii.eqb a c then i else acc)
  end.

Definition rfind (c : ascii) (s : string) : Z := rfind_from c s 0 (-1).

(** Slices [p[:i]], [p[i:]] and [p[i:i+1]] for [0 <= i]. *)
Definition slice_to (i : Z) (p : string) : string :=
  substring 0 (Z.to_nat i) p.
Definition slice_from (i : Z) (p : string) : string :=
  substring (Z.to_nat i) (String.length p - Z.to_nat i) p.
Definition slice_at (i : Z) (p : string) : string :=
  substring (Z.to_nat i) 1 p.

(** The [while filenameIndex < dotIndex] loop of [genericpath._splitext]:
    it returns at the first character of the base name that is not a dot,
    and falls through when the base name has leading dots only. *)
Fixpoint splitext_loop (n : nat) (p : string) (filenameIndex dotIndex : Z)
  : string * string :=
  match n with
  | O => (p, "")
  | S n' =>
      if negb (slice_at filenameIndex p =? ".")
      then (slice_to dotIndex p, slice_from dotIndex p)
      else splitext_loop n' p (filenameIndex + 1) dotIndex
  end.

(** [os.path.splitext] of [posixpath]: [sep] is [/], there is no [altsep]. *)
Definition splitext (p : string) : string * string :=
  let sepIndex := rfind "/"%char p in
  let dotIndex := rfind "."%char p in
  if (sepIndex <? dotIndex)%Z
  then splitext_loop (Z.to_nat (dotIndex - (sepIndex + 1))) p
                     (sepIndex + 1) dotIndex
  else (p, "").

(** [s.replace(old, new)]: every non-overlapping occurrence of [old], found
    from the left, becomes [new].  [skip] counts the characters of a matched
    occurrence that are still to be dropped. *)
Fixpoint replace_from (old new : string) (skip : nat) (s : string) : string :=
  match s with
  | EmptyString => EmptyString
  | String c s' =>
      match skip with
      | S k => replace_from old new k s'
      | O =>
          if prefix old s
          then new ++ replace_from old new (String.length old - 1) s'
          else String c (replace_from old new 0 s')
      end
  end.

(** A continuation byte of UTF-8, [10xxxxxx]: a byte inside a character. *)
Definition is_continuation (c : ascii) : bool :=
  let n := nat_of_ascii c in
  andb (128 <=? n)%nat (n <=? 191)%nat.

(** With an empty [old], Python puts [new] before every character and at the
    end.  In UTF-8 a character starts at every byte that is not a
    continuation byte. *)
Fixpoint intersperse (new s : string) : string :=
  match s with
  | EmptyString => new
  | String c s' =>
      if is_continuation c then String c (intersperse new s')
      else new ++ String c (intersperse new s')
  end.

Definition replace (old new s : string) : string :=
  if old =? "" then intersperse new s else replace_from old new 0 s.

(** [s1 in s2]. *)
Fixpoint contains (sub s : string) : bool :=
  match s with
  | EmptyString => sub =? ""
  | String _ s' => prefix sub s || contains sub s'
  end.

(** [str(n)] of an integer. *)
Definition str_int (z : Z) : string := NilZero.string_of_int (Z.to_int z).

End Py.

(** ** The export artifact's name and MIME type (lines 137 to 142) *)

Inductive ConversionType := CSV | Excel.

(** The labels of the radio button; [conversion_type] holds one of them. *)
Definition label (conversion_type : ConversionType) : string :=
  match conversion_type with
  | CSV => "CSV"
  | Excel => "Excel"
  end.

(** [file_extension = os.path.splitext(file.name)[-1].lower()] *)
Definition file_extension (name : string) : string :=
  Py.lower (snd (Py.splitext name)).

(** [file_name = file.name.replace(file_extension,
                                   f".{conversion_type.lower()}")] *)
Definition file_name (name : string) (conversion_type : ConversionType)
  : string :=
  Py.replace (file_extension name) ("." ++ Py.lower (label conversion_type))
             name.

Definition mime_type (conversion_type : ConversionType) : string :=
  match conversion_type with
  | CSV => "text/csv"
  | Excel => "application/vnd.openxmlformats-officedocument.spreadsheetml.sheet"
  end.

(** The stem of a file name, the first component of [splitext]. *)
Definition stem (name : string) : string := fst (Py.splitext name).

(** ** The pandas data frame and the primitives the script calls *)

Module Pandas.

(** A raised Python exception: its class name and [str(e)]. *)
Record Exception := { exc_type : string; exc_msg : string }.

(** A computation that returns a value or raises. *)
Definition result (A : Type) : Type := (Exception + A)%type.
Definition ret {A : Type} (a : A) : result A := inr a.
Definition raise {A : Type} (ty msg : string) : result A :=
  inl {| exc_type := ty; exc_msg := msg |}.
Definition bind {A B : Type} (m : result A) (k : A -> result B) : result B :=
  match m with
  | inl e => inl e
  | inr a => k a
  end.

(** Column types: the NumPy ones the readers produce and the nullable
    extension types [convert_dtypes] turns them into. *)
Inductive dtype :=
| int64 | float64 | bool_ | object
| Int64 | Float64 | boolean | string_.

(** A cell.  [NaN] is the missing marker of NumPy columns, [NA] the one of
    the nullable columns. *)
Inductive value :=
| VInt (z : Z)
| VFloat (q : Qc)
| VBool (b : bool)
| VStr (s : string)
| NaN
| NA.

Record Series := {
  col_name : string;
  col_dtype : dtype;
  col_values : list value
}.

(** A frame: the row labels and the ordered columns.  The row count is the
    length of [index], also when there is no column. *)
Record DataFrame := {
  index : list nat;
  columns : list Series
}.

Definition nrows (df : DataFrame) : nat := List.length (index df).
Definition ncols (df : DataFrame) : nat := List.length (columns df).
Definition column_names (df : DataFrame) : list string :=
  map col_name (columns df).

(** [df.empty]: some axis has length 0. *)
Definition empty (df : DataFrame) : bool :=
  (nrows df =? 0)%nat || (ncols df =? 0)%nat.

Definition isna (v : value) : bool :=
  match v with
  | NaN | NA => true
  | _ => false
  end.

Definition dtype_eq_dec (a b : dtype) : {a = b} + {a <> b}.
Proof. decide equality. Defined.

Definition value_eq_dec (a b : value) : {a = b} + {a <> b}.
Proof.
  decide equality.
  - apply Z.eq_dec.
  - apply Qc_eq_dec.
  - apply bool_dec.
  - apply string_dec.
Defined.

Definition row := list value.

Definition row_eq_dec : forall a b : row, {a = b} + {a <> b} :=
  list_eq_dec value_eq_dec.

(** *** Formatting of cells *)

Definition is_integral (q : Qc) : bool := (Qden (this q) =? 1)%positive.

Definition Qc_of_Z (z : Z) : Qc := Q2Qc (inject_Z z).

(** The digits after the decimal point of [rem / d], at most [fuel] of
    them. *)
Fixpoint frac_digits (fuel : nat) (rem d : Z) : string :=
  match fuel with
  | O => ""
  | S fuel' =>
      if (rem =? 0)%Z then ""
      else Py.str_int (rem * 10 / d) ++ frac_digits fuel' (rem * 10 mod d) d
  end.

(** [repr] of a float: [5.0], [-1.25].  An integral float keeps one zero
    after the point; the expansion stops after 17 digits. *)
Definition repr_float (q : Qc) : string :=
  let n := Qnum (this q) in
  let d := Zpos (Qden (this q)) in
  let a := Z.abs n in
  let frac := frac_digits 17 (a mod d) d in
  (if (n <? 0)%Z then "-" else "")
    ++ Py.str_int (a / d) ++ "." ++ (if frac =? "" then "0" else frac).

(** [str(x)] of a cell, as [astype(str)] applies it. *)
Definition py_str (v : value) : string :=
  match v with
  | VInt z => Py.str_int z
  | VFloat q => repr_float q
  | VBool true => "True"
  | VBool false => "False"
  | VStr s => s
  | NaN => "nan"
  | NA => "<NA>"
  end.

(** *** [select_dtypes] *)

(** [include=["number"]]: integer and float columns; boolean columns are
    excluded. *)
Definition is_number (d : dtype) : bool :=
  match d with
  | int64 | float64 | Int64 | Float64 => true
  | _ => false
  end.

Definition is_object (d : dtype) : bool :=
  match d with
  | object => true
  | _ => false
  end.

Definition select_dtypes (include : dtype -> bool) (df : DataFrame)
  : DataFrame :=
  {| index := index df;
     columns := filter (fun c => include (col_dtype c)) (columns df) |}.

(** *** [convert_dtypes] *)

Definition is_str (v : value) : bool :=
  match v with VStr _ => true | _ => false end.
Definition is_bool (v : value) : bool :=
  match v with VBool _ => true | _ => false end.
Definition is_num (v : value) : bool :=
  match v with VInt _ | VFloat _ => true | _ => false end.

(** A numeric cell that holds a whole number. *)
Definition is_whole (v : value) : bool :=
  match v with
  | VInt _ => true
  | VFloat q => is_integral q
  | _ => false
  end.

Definition present (vs : list value) : list value :=
  filter (fun v => negb (isna v)) vs.

(** The range of a 64-bit integer. *)
Definition in_int64 (z : Z) : bool :=
  ((- 2 ^ 63 <=? z) && (z <? 2 ^ 63))%Z.

(** A numeric cell that an [Int64] column can hold: a whole number in the
    64-bit range ([arr.astype(int) == arr] in [convert_dtypes]). *)
Definition is_int64 (v : value) : bool :=
  match v with
  | VInt z => in_int64 z
  | VFloat q => is_integral q && in_int64 (Qnum (this q))
  | _ => false
  end.

(** The cell of a nullable column for a cell of a NumPy column. *)
Definition to_nullable (v : value) : value :=
  if isna v then NA else v.

Definition to_Int64 (v : value) : value :=
  match v with
  | VFloat q => if is_integral q then VInt (Qnum (this q)) else NA
  | VInt z => VInt z
  | _ => NA
  end.

Definition to_Float64 (v : value) : value :=
  match v with
  | VInt z => VFloat (Qc_of_Z z)
  | VFloat q => VFloat q
  | _ => NA
  end.

(** The type [convert_dtypes] infers for a column, from its type and the
    cells that are not missing: whole numbers in the 64-bit range give
    [Int64] (also for a float column, and for a column of missing cells
    only), other numbers [Float64], text [string], truth values [boolean]; a
    column that mixes kinds stays [object], and so does an [object] column
    without any row. *)
Definition inferred_dtype (d : dtype) (vs : list value) : dtype :=
  match d with
  | int64 => Int64
  | float64 => if forallb is_int64 (present vs) then Int64 else Float64
  | bool_ => boolean
  | object =>
      match vs with
      | [] => object
      | _ =>
          let p := present vs in
          if forallb is_num p
          then (if forallb is_int64 p then Int64 else Float64)
          else if forallb is_str p then string_
          else if forallb is_bool p then boolean
          else object
      end
  | d' => d'
  end.

(** [Series.astype(dtype)] for the inferred type. *)
Definition astype (d : dtype) (vs : list value) : list value :=
  match d with
  | Int64 => map to_Int64 vs
  | Float64 => map to_Float64 vs
  | boolean | string_ => map to_nullable vs
  | _ => vs
  end.

Definition convert_series (c : Series) : Series :=
  let d := inferred_dtype (col_dtype c) (col_values c) in
  {| col_name := col_name c;
     col_dtype := d;
     col_values := astype d (col_values c) |}.

Definition convert_dtypes (df : DataFrame) : DataFrame :=
  {| index := index df; columns := map convert_series (columns df) |}.

(** [s.astype(str)]: every cell becomes its [str()], the column is an
    [object] column of Python strings. *)
Definition astype_str (c : Series) : Series :=
  {| col_name := col_name c;
     col_dtype := object;
     col_values := map (fun v => VStr (py_str v)) (col_values c) |}.

(** *** Column access: [df[col]], [df[cols]], [df[col] = s], [df[cols] = df2] *)

Definition has_name (k : string) (c : Series) : bool := col_name c =? k.

(** [df[cols]] for a list of labels: for each label in turn, every column
    that carries it; a label that no column carries raises [KeyError].  The
    row labels are kept.  Of the exception only the class is modelled: its
    text, which in pandas lists the absent labels, is not, and the model's
    exception carries the first absent label in its place. *)
Fixpoint getitem_columns (cols : list string) (cs : list Series)
  : result (list Series) :=
  match cols with
  | [] => ret []
  | k :: cols' =>
      match filter (has_name k) cs with
      | [] => raise "KeyError" k
      | found =>
          bind (getitem_columns cols' cs) (fun rest => ret (found ++ rest)%list)
      end
  end.

Definition getitem (cols : list string) (df : DataFrame) : result DataFrame :=
  bind (getitem_columns cols (columns df))
       (fun cs => ret {| index := index df; columns := cs |}).

(** [df[k] = s]: the column labelled [k] takes the type and cells of [s] and
    keeps its label and place; a new label is appended. *)
Definition setitem (k : string) (s : Series) (df : DataFrame) : DataFrame :=
  let s' := {| col_name := k; col_dtype := col_dtype s;
               col_values := col_values s |} in
  {| index := index df;
     columns :=
       if existsb (has_name k) (columns df)
       then map (fun c => if has_name k c then s' else c) (columns df)
       else (columns df ++ [s'])%list |}.

(** [df[cols] = df2]: the labels are paired with the columns of [df2] in
    order, and each pair is one column assignment. *)
Definition setitem_columns (cols : list string) (df2 : DataFrame)
  (df : DataFrame) : DataFrame :=
  fold_left (fun acc ks => setitem (fst ks) (snd ks) acc)
            (combine cols (columns df2)) df.

(** *** [drop_duplicates] *)

(** The rows of [n] columns' cells, first row first. *)
Fixpoint transpose (n : nat) (cols : list (list value)) : list row :=
  match n with
  | O => []
  | S n' => map (hd NA) cols :: transpose n' (map (@tl value) cols)
  end.

Definition rows (df : DataFrame) : list row :=
  transpose (nrows df) (map col_values (columns df)).

(** [duplicated(keep="first")]: a row is marked when an equal row came
    before it.  Rows are equal when all their cells are; two missing cells of
    a column are equal. *)
Fixpoint duplicated_from (seen : list row) (rs : list row) : list bool :=
  match rs with
  | [] => []
  | r :: rs' =>
      (if in_dec row_eq_dec r seen then true else false)
        :: duplicated_from (r :: seen) rs'
  end.

Definition duplicated (df : DataFrame) : list bool :=
  duplicated_from [] (rows df).

(** Boolean indexing [l[mask]]. *)
Fixpoint mask_filter {A : Type} (mask : list bool) (l : list A) : list A :=
  match mask, l with
  | b :: mask', a :: l' =>
      if b then a :: mask_filter mask' l' else mask_filter mask' l'
  | _, _ => []
  end.

(** [df[mask]]: the rows where [mask] holds, with their labels. *)
Definition getitem_mask (mask : list bool) (df : DataFrame) : DataFrame :=
  {| index := mask_filter mask (index df);
     columns :=
       map (fun c => {| col_name := col_name c; col_dtype := col_dtype c;
                        col_values := mask_filter mask (col_values c) |})
           (columns df) |}.

(** [df.drop_duplicates(inplace=True)]: an empty frame is left as it is,
    otherwise the frame becomes [df[-df.duplicated()]]. *)
Definition drop_duplicates (df : DataFrame) : DataFrame :=
  if empty df then df else getitem_mask (map negb (duplicated df)) df.

(** *** [mean] and [fillna] *)

Definition as_Qc (v : value) : option Qc :=
  match v with
  | VInt z => Some (Qc_of_Z z)
  | VFloat q => Some q
  | _ => None
  end.

(** The numbers of a column, missing cells skipped. *)
Fixpoint numbers (vs : list value) : list Qc :=
  match vs with
  | [] => []
  | v :: vs' =>
      match as_Qc v with
      | Some q => q :: numbers vs'
      | None => numbers vs'
      end
  end.

Definition Qc_sum (qs : list Qc) : Qc := fold_right Qcplus (Qc_of_Z 0) qs.

(** [Series.mean()], [skipna=True]: [None] stands for the missing result of
    a column without any number. *)
Definition series_mean (vs : list value) : option Qc :=
  match numbers vs with
  | [] => None
  | qs => Some (Qc_sum qs / Qc_of_Z (Z.of_nat (List.length qs)))%Qc
  end.

(** [df.mean()]: a series of the column means, labelled by the columns. *)
Definition mean (df : DataFrame) : list (string * option Qc) :=
  map (fun c => (col_name c, series_mean (col_values c))) (columns df).

(** [Series.fillna(v)] for a scalar [v].  A float column takes any number.
    A nullable integer column with a missing cell validates the value first:
    a whole number is stored as an integer, any other raises [TypeError]; a
    column without a missing cell is returned as it is. *)
Definition series_fillna (v : Qc) (c : Series) : result Series :=
  let fill (x : value) : list value :=
    map (fun y => if isna y then x else y) (col_values c) in
  let with_values (vs : list value) : Series :=
    {| col_name := col_name c; col_dtype := col_dtype c; col_values := vs |} in
  match col_dtype c with
  | float64 | Float64 => ret (with_values (fill (VFloat v)))
  | Int64 =>
      if existsb isna (col_values c)
      then if is_integral v
           then ret (with_values (fill (VInt (Qnum (this v)))))
           else raise "TypeError"
                      ("Invalid value '" ++ repr_float v
                         ++ "' for dtype Int64")
      else ret c
  | _ => ret c
  end.

(** [df.fillna(value)] for a series [value] of scalars: [for k, v in
    value.items()], the column [k] of the frame, when there is one, becomes
    [df[k].fillna(v)]; a missing [v] fills nothing. *)
Fixpoint fillna (value : list (string * option Qc)) (df : DataFrame)
  : result DataFrame :=
  match value with
  | [] => ret df
  | (k, v) :: value' =>
      match v, find (has_name k) (columns df) with
      | Some q, Some c =>
          bind (series_fillna q c) (fun c' => fillna value' (setitem k c' df))
      | _, _ => fillna value' df
      end
  end.

(** *** [to_csv(buffer, index=False)] *)

(** A field is quoted when it holds the delimiter, a quote or the line
    terminator (a comma, a double quote, a line feed); a quote inside it is
    doubled. *)
Definition needs_quotes (s : string) : bool :=
  Py.contains "," s || Py.contains Py.dquote s || Py.contains Py.newline s.

Definition csv_field (s : string) : string :=
  if needs_quotes s
  then Py.dquote ++ Py.replace Py.dquote (Py.dquote ++ Py.dquote) s
         ++ Py.dquote
  else s.

(** The text of a cell: a missing cell is written as the empty field. *)
Definition csv_cell (v : value) : string :=
  if isna v then "" else py_str v.

(** One record.  A record of a single empty field is written as a pair of
    quotes. *)
Definition csv_record (fields : list string) : string :=
  match fields with
  | [f] => if f =? "" then Py.dquote ++ Py.dquote else csv_field f
  | _ => String.concat "," (map csv_field fields)
  end.

Definition to_csv (df : DataFrame) : string :=
  Py.unlines (csv_record (column_names df)
                :: map (fun r => csv_record (map csv_cell r)) (rows df)).

End Pandas.

(** ** A reader for plain CSV text

    [pd.read_csv] belongs to the table engine.  [read_csv_plain] is the
    reader for the plain fragment of the format: records end with a line
    feed, fields are separated by commas, are not quoted and have no blank
    at either end, the first record is the header and its names are distinct,
    no record is longer than the header, numbers are written without
    exponent and integers fit 64 bits.  Blank lines are skipped, a short
    record is padded with missing fields, and the default missing markers are
    recognised.  Outside this fragment the reader is not [pd.read_csv]; the
    statements about the script hold for any reader, and the reader serves
    the examples, whose texts are in the fragment. *)

Module PlainCsv.
Import Pandas.

(** [s.split(sep)] for a one-character separator. *)
Fixpoint split (sep : ascii) (s : string) : list string :=
  match s with
  | EmptyString => [""]
  | String c s' =>
      if Ascii.eqb c sep then "" :: split sep s'
      else match split sep s' with
           | [] => [String c ""]
           | f :: fs => String c f :: fs
           end
  end.

Definition strip_cr (s : string) : string :=
  let n := String.length s in
  if substring (n - 1) 1 s =? String (ascii_of_nat 13) ""
  then substring 0 (n - 1) s else s.

Definition records (content : string) : list (list string) :=
  map (split ","%char)
      (filter (fun l => negb (l =? ""))
              (map strip_cr (split (ascii_of_nat 10) content))).

(** The texts [read_csv] reads as a missing cell by default. *)
Definition na_values : list string :=
  [""; "#N/A"; "#N/A N/A"; "#NA"; "-1.#IND"; "-1.#QNAN"; "-NaN"; "-nan";
   "1.#IND"; "1.#QNAN"; "<NA>"; "N/A"; "NA"; "NULL"; "NaN"; "None"; "n/a";
   "nan"; "null"].

Definition is_na (s : string) : bool := existsb (String.eqb s) na_values.

Definition digit_of (c : ascii) : option Z :=
  let n := nat_of_ascii c in
  if andb (48 <=? n)%nat (n <=? 57)%nat then Some (Z.of_nat (n - 48))
  else None.

(** The value of a non-empty run of decimal digits. *)
Fixpoint digits_from (acc : Z) (s : string) : option Z :=
  match s with
  | EmptyString => Some acc
  | String c s' =>
      match digit_of c with
      | Some d => digits_from (acc * 10 + d) s'
      | None => None
      end
  end.

Definition digits (s : string) : option Z :=
  if s =? "" then None else digits_from 0 s.

(** The sign of a literal and the rest of it. *)
Definition signed (s : string) : Z * string :=
  match s with
  | String "-"%char s' => ((-1)%Z, s')
  | String "+"%char s' => (1%Z, s')
  | _ => (1%Z, s)
  end.

Definition parse_int (s : string) : option Z :=
  let (sg, body) := signed s in
  option_map (Z.mul sg) (digits body).

(** A decimal literal: digits, a point, digits, with a digit on one side of
    the point at least. *)
Definition parse_float (s : string) : option Qc :=
  let (sg, body) := signed s in
  match split "."%char body with
  | [i] => option_map (fun z => Qc_of_Z (sg * z)) (digits i)
  | [i; f] =>
      if andb (i =? "") (f =? "") then None
      else
        match digits_from 0 i, digits_from 0 f with
        | Some zi, Some zf =>
            let scale := (10 ^ Z.of_nat (String.length f))%Z in
            Some (Q2Qc (Qmake (sg * (zi * scale + zf)) (Z.to_pos scale)))
        | _, _ => None
        end
  | _ => None
  end.

Definition parse_bool (s : string) : option bool :=
  if existsb (String.eqb s) ["True"; "TRUE"; "true"] then Some true
  else if existsb (String.eqb s) ["False"; "FALSE"; "false"] then Some false
  else None.

Definition is_some {A : Type} (o : option A) : bool :=
  match o with Some _ => true | None => false end.

(** The column for the fields of one column: integers when every field is
    one; floats when every field is a number or missing; truth values when
    every field is one, in an [object] column as soon as a field is missing;
    text otherwise, and for a column without any record. *)
Definition infer_column (k : string) (fields : list string) : Series :=
  let cell (f : string -> value) (s : string) : value :=
    if is_na s then NaN else f s in
  let other := filter (fun s => negb (is_na s)) fields in
  if (List.length fields =? 0)%nat
  then {| col_name := k; col_dtype := object; col_values := [] |}
  else if forallb (fun s => is_some (parse_int s)) fields
  then {| col_name := k; col_dtype := int64;
          col_values :=
            map (fun s => match parse_int s with
                          | Some z => VInt z
                          | None => NaN
                          end) fields |}
  else if forallb (fun s => is_some (parse_float s)) other
  then {| col_name := k; col_dtype := float64;
          col_values :=
            map (cell (fun s => match parse_float s with
                                | Some q => VFloat q
                                | None => NaN
                                end)) fields |}
  else if forallb (fun s => is_some (parse_bool s)) other
  then {| col_name := k;
          col_dtype := if existsb is_na fields then object else bool_;
          col_values :=
            map (cell (fun s => match parse_bool s with
                                | Some b => VBool b
                                | None => NaN
                                end)) fields |}
  else {| col_name := k; col_dtype := object;
          col_values := map (cell VStr) fields |}.

(** The [i]-th field of every record, a missing one for a short record. *)
Definition field_column (i : nat) (recs : list (list string)) : list string :=
  map (fun r => nth i r "") recs.

Definition read_csv_plain (content : string) : result DataFrame :=
  match records content with
  | [] => raise "EmptyDataError" "No columns to parse from file"
  | header :: data =>
      if existsb (fun r => (List.length header <? List.length r)%nat) data
      then raise "ParserError" "Error tokenizing data"
      else
        ret {| index := seq 0 (List.length data);
               columns :=
                 map (fun ik => infer_column (snd ik)
                                             (field_column (fst ik) data))
                     (combine (seq 0 (List.length header)) header) |}
  end.

End PlainCsv.

(** ** The script: [process_file] and the loop over the uploads *)

Module App.
Import Pandas.

(** An uploaded file. *)
Record File := {
  name : string;
  size : nat;
  content : string
}.

(** The table engine's readers and the workbook writer, which work on the
    binary workbook format or on the whole of CSV. *)
Record Engine := {
  read_csv : string -> result DataFrame;
  read_excel : string -> result DataFrame;
  to_excel : DataFrame -> result string
}.

(** The values of the widgets of one file in one run of the script.  The
    multiselect holds [None] while it shows its default, all columns.  A
    checkbox, the multiselect and the radio button keep their value from run
    to run; a button is true only in the run that its own click causes. *)
Record Controls := {
  enable_cleaning : bool;
  remove_duplicates : bool;
  fill_missing : bool;
  selected_columns : option (list string);
  conversion_type : ConversionType;
  convert : bool
}.

(** The states a run of the script can have: at most one of the three
    buttons is true. *)
Definition one_click (ctl : Controls) : Prop :=
  (remove_duplicates ctl = false /\ fill_missing ctl = false)
  \/ (remove_duplicates ctl = false /\ convert ctl = false)
  \/ (fill_missing ctl = false /\ convert ctl = false).

(** What the script shows: error and success messages and the download
    button with its artifact.  The widgets that only display the frame
    (metadata, preview, summary, chart) are left out. *)
Inductive Event :=
| st_error (msg : string)
| st_success (msg : string)
| st_download_button (label data file_name mime : string).

(** A piece of the script: the events it showed, and its value or the
    exception that ended it. *)
Definition Run (A : Type) : Type := (list Event * result A)%type.

Definition done {A : Type} (a : A) : Run A := ([], ret a).
Definition emit (e : Event) : Run unit := ([e], ret tt).
Definition lift {A : Type} (r : result A) : Run A := ([], r).
Definition andthen {A B : Type} (m : Run A) (k : A -> Run B) : Run B :=
  match m with
  | (ev, inl e) => (ev, inl e)
  | (ev, inr a) => let (ev', r) := k a in ((ev ++ ev')%list, r)
  end.

Notation "x <- m ;; k" := (andthen m (fun x => k))
  (at level 61, m at next level, right associativity).
Notation "m ;;; k" := (andthen m (fun _ => k))
  (at level 61, right associativity).

(** Lines 81 to 83: [convert_dtypes], then every column that is still an
    [object] column becomes a column of strings. *)
Definition object_columns (df : DataFrame) : list string :=
  column_names (select_dtypes is_object df).

Definition stringify (col : string) (df : DataFrame) : DataFrame :=
  match find (has_name col) (columns df) with
  | Some s => setitem col (astype_str s) df
  | None => df
  end.

Definition normalize (df : DataFrame) : DataFrame :=
  let df := convert_dtypes df in
  fold_left (fun df col => stringify col df) (object_columns df) df.

(** Lines 71 to 83, the body of the [try]. *)
Definition load (E : Engine) (file : File) : result DataFrame :=
  bind (if file_extension (name file) =? ".csv"
        then read_csv E (content file)
        else read_excel E (content file))
       (fun df => ret (normalize df)).

(** The message of line 86. *)
Definition load_error_message (file : File) (e : Exception) : string :=
  "❌ Error processing " ++ name file ++ ": " ++ exc_msg e.

(** Lines 111 to 114. *)
Definition remove_duplicates_button (df : DataFrame) : Run DataFrame :=
  let initial_count := Z.of_nat (nrows df) in
  let df := drop_duplicates df in
  emit (st_success ("✅ Removed "
                      ++ Py.str_int (initial_count - Z.of_nat (nrows df))
                      ++ " duplicate rows.")) ;;;
  done df.

(** Lines 117 and 118. *)
Definition fill_missing_values (df : DataFrame) : result DataFrame :=
  let numeric_cols := column_names (select_dtypes is_number df) in
  bind (getitem numeric_cols df) (fun sub =>
  bind (fillna (mean sub) sub) (fun filled =>
  ret (setitem_columns numeric_cols filled df))).

(** Lines 116 to 119. *)
Definition fill_missing_button (df : DataFrame) : Run DataFrame :=
  df <- lift (fill_missing_values df) ;;
  emit (st_success "✅ Missing values filled with column means.") ;;;
  done df.

(** Lines 108 to 119. *)
Definition cleaning (ctl : Controls) (df : DataFrame) : Run DataFrame :=
  if enable_cleaning ctl
  then
    df <- (if remove_duplicates ctl then remove_duplicates_button df
           else done df) ;;
    if fill_missing ctl then fill_missing_button df else done df
  else done df.

(** Lines 123 and 124: the multiselect offers [df.columns] and defaults to
    all of them. *)
Definition select_columns (ctl : Controls) (df : DataFrame)
  : result DataFrame :=
  match selected_columns ctl with
  | None => getitem (column_names df) df
  | Some cols => getitem cols df
  end.

(** Lines 139 to 156. *)
Definition convert_button (E : Engine) (file : File) (ctl : Controls)
  (df : DataFrame) : Run unit :=
  data <- lift (match conversion_type ctl with
                | CSV => ret (to_csv df)
                | Excel => to_excel E df
                end) ;;
  emit (st_download_button
          ("⬇ Download " ++ name file ++ " as "
             ++ label (conversion_type ctl))
          data
          (file_name (name file) (conversion_type ctl))
          (mime_type (conversion_type ctl))).

(** The transformations of [process_file] after the load. *)
Definition transform (ctl : Controls) (df : DataFrame) : Run DataFrame :=
  df <- cleaning ctl df ;;
  lift (select_columns ctl df).

(** [process_file], for a run in which the summary and the visualisation
    checkboxes are not checked, so that lines 104 and 129 to 133 are not
    run; the widgets of lines 90 to 100 show the frame and do not change
    it. *)
Definition process_file (E : Engine) (file : File) (ctl : Controls)
  : Run unit :=
  match load E file with
  | inl e => emit (st_error (load_error_message file e))
  | inr df =>
      df <- transform ctl df ;;
      if convert ctl then convert_button E file ctl df else done tt
  end.

(** Lines 159 to 161: the widgets are keyed by the file's name. *)
Fixpoint process_files (E : Engine) (ui : string -> Controls)
  (uploaded_files : list File) : Run unit :=
  match uploaded_files with
  | [] => done tt
  | file :: rest =>
      process_file E file (ui (name file)) ;;; process_files E ui rest
  end.

(** The script from line 159 on. *)
Definition main (E : Engine) (ui : string -> Controls)
  (uploaded_files : list File) : Run unit :=
  process_files E ui uploaded_files ;;;
  emit (st_success "🎉 All files processed successfully!").

(** *** Engines and inputs used in the examples *)

(** The engine of an installation without [openpyxl], the optional library
    behind [engine="openpyxl"]: CSV is read by the plain reader, reading a
    workbook raises [ImportError], and writing one raises
    [ModuleNotFoundError]. *)
Definition missing_openpyxl : string :=
  "Missing optional dependency 'openpyxl'.  Use pip or conda to install openpyxl.".

Definition no_openpyxl : string := "No module named 'openpyxl'".

Definition text_engine : Engine := {|
  read_csv := PlainCsv.read_csv_plain;
  read_excel := fun _ => raise "ImportError" missing_openpyxl;
  to_excel := fun _ => raise "ModuleNotFoundError" no_openpyxl
|}.

Definition upload (name content : string) : File :=
  {| name := name; size := String.length content; content := content |}.

(** The widgets as the script first shows them. *)
Definition untouched : Controls := {|
  enable_cleaning := false;
  remove_duplicates := false;
  fill_missing := false;
  selected_columns := None;
  conversion_type := CSV;
  convert := false
|}.

End App.

(** ** Vocabulary of the statements *)

Module Spec.
Import Pandas App.

(** The invariants of a frame: every column has one cell per row label, and
    the column labels are distinct (the readers rename repeated labels). *)
Definition rectangular (df : DataFrame) : Prop :=
  Forall (fun c => List.length (col_values c) = nrows df) (columns df).

Definition unique_labels (df : DataFrame) : Prop :=
  NoDup (column_names df).

(** The data of the download buttons a run showed. *)
Fixpoint downloads (events : list Event) : list string :=
  match events with
  | [] => []
  | st_download_button _ data _ _ :: events' => data :: downloads events'
  | _ :: events' => downloads events'
  end.

(** What [normalize] does to one column after [convert_dtypes]. *)
Definition stringify_series (c : Series) : Series :=
  if is_object (col_dtype c) then astype_str c else c.

(** The number of rows a mask drops. *)
Definition dropped (keep : list bool) : nat :=
  List.length (filter negb keep).

(** The rows [duplicated] does not mark, given the rows seen before. *)
Definition kept (seen rs : list row) : list row :=
  mask_filter (map negb (duplicated_from seen rs)) rs.

(** *** Inputs of the examples *)

(** The text [a,b / 1, / 2,5 / 1,5]. *)
Definition scenario_csv : string := Py.unlines ["a,b"; "1,"; "2,5"; "1,5"].

(** The text [a,b / 1,x / ,y / 2,z]: the numbers of [a] have mean 1.5. *)
Definition fractional_csv : string :=
  Py.unlines ["a,b"; "1,x"; ",y"; "2,z"].

(** The text [a,b / x,1 / ,2]: the text column [a] has an empty cell. *)
Definition gap_csv : string := Py.unlines ["a,b"; "x,1"; ",2"].

(** Every cleaning button pressed, all columns kept, download as CSV. *)
Definition clean_to_csv : Controls := {|
  enable_cleaning := true;
  remove_duplicates := true;
  fill_missing := true;
  selected_columns := None;
  conversion_type := CSV;
  convert := true
|}.

(** The runs a click causes, with the cleaning checkbox checked: the click
    on Remove Duplicates, on Fill Missing Values, on Convert. *)
Definition press_remove_duplicates : Controls := {|
  enable_cleaning := true;
  remove_duplicates := true;
  fill_missing := false;
  selected_columns := None;
  conversion_type := CSV;
  convert := false
|}.

Definition press_fill_missing : Controls := {|
  enable_cleaning := true;
  remove_duplicates := false;
  fill_missing := true;
  selected_columns := None;
  conversion_type := CSV;
  convert := false
|}.

Definition press_convert (conversion_type : ConversionType) : Controls := {|
  enable_cleaning := true;
  remove_duplicates := false;
  fill_missing := false;
  selected_columns := None;
  conversion_type := conversion_type;
  convert := true
|}.

(** The widgets of a run caused by a click in the section of one upload:
    the clicked button returns true for that upload, and the widgets of the
    other uploads are as the script first shows them. *)
Definition click_in (clicked : string) (ctl : Controls)
  : string -> Controls :=
  fun file_name => if String.eqb file_name clicked then ctl else untouched.

(** Every column taken out of the multiselect, nothing else touched. *)
Definition select_nothing : Controls := {|
  enable_cleaning := false;
  remove_duplicates := false;
  fill_missing := false;
  selected_columns := Some [];
  conversion_type := CSV;
  convert := false
|}.

(** The frame [scenario_csv] loads as, and that frame with its missing cell
    filled. *)
Definition scenario_loaded : DataFrame := {|
  index := [0; 1; 2]%nat;
  columns :=
    [ {| col_name := "a"; col_dtype := Int64;
         col_values := [VInt 1; VInt 2; VInt 1] |};
      {| col_name := "b"; col_dtype := Int64;
         col_values := [NA; VInt 5; VInt 5] |} ]
|}.

Definition scenario_filled : DataFrame := {|
  index := [0; 1; 2]%nat;
  columns :=
    [ {| col_name := "a"; col_dtype := Int64;
         col_values := [VInt 1; VInt 2; VInt 1] |};
      {| col_name := "b"; col_dtype := Int64;
         col_values := [VInt 5; VInt 5; VInt 5] |} ]
|}.

(** The text [a,b / 1,5 / 2,5 / 1,5]. *)
Definition filled_csv : string := Py.unlines ["a,b"; "1,5"; "2,5"; "1,5"].

(** The text [a,b / 1,5.0 / 2,5.0 / 1,5.0]. *)
Definition float_csv : string :=
  Py.unlines ["a,b"; "1,5.0"; "2,5.0"; "1,5.0"].

(** The frame the text [a,b / 1,x / ,y / 2,z] loads as. *)
Definition fractional_loaded : DataFrame := {|
  index := [0; 1; 2]%nat;
  columns :=
    [ {| col_name := "a"; col_dtype := Int64;
         col_values := [VInt 1; NA; VInt 2] |};
      {| col_name := "b"; col_dtype := string_;
         col_values := [VStr "x"; VStr "y"; VStr "z"] |} ]
|}.

(** No cleaning, download as a workbook. *)
Definition to_workbook : Controls := {|
  enable_cleaning := false;
  remove_duplicates := false;
  fill_missing := false;
  selected_columns := None;
  conversion_type := Excel;
  convert := true
|}.

(** A frame with a repeated row: rows 0 and 2 are equal, and so are their
    missing cells. *)
Definition repeated_rows : DataFrame := {|
  index := [0; 1; 2; 3]%nat;
  columns :=
    [ {| col_name := "a"; col_dtype := Int64;
         col_values := [VInt 1; VInt 2; VInt 1; VInt 2] |};
      {| col_name := "b"; col_dtype := string_;
         col_values := [NA; VStr "x"; NA; VStr "y"] |} ]
|}.

(** A frame as [read_excel] returns it for a sheet whose column [m] mixes a
    number, a text and an empty cell. *)
Definition mixed_sheet : DataFrame := {|
  index := [0; 1; 2]%nat;
  columns :=
    [ {| col_name := "m"; col_dtype := object;
         col_values := [VInt 1; VStr "x"; NaN] |} ]
|}.

End Spec.

(** ** Characters of a text *)

Module Text.

(** [c] is not a character of [s]. *)
Definition absent (c : ascii) (s : string) : Prop :=
  ~ In c (list_ascii_of_string s).

(** A text of ASCII characters only.  On such a text a byte is a character,
    and [str.lower] changes the letters [A] to [Z] and nothing else. *)
Definition is_ascii (s : string) : bool :=
  forallb (fun c => (nat_of_ascii c <? 128)%nat) (list_ascii_of_string s).

End Text.

(** ** The widgets that display the frame (lines 92 to 100) *)

Module Display.
Import Pandas App.

(** Rounding of [n / d] to the nearest integer, a tie going to the even
    one. *)
Definition round_half_even (n d : Z) : Z :=
  let q := (n / d)%Z in
  let r := (n mod d)%Z in
  if (2 * r <? d)%Z then q
  else if (d <? 2 * r)%Z then (q + 1)%Z
  else if Z.even q then q else (q + 1)%Z.

(** The hundredths of [file.size / 1024] that the format [.2f] shows.  For
    a size below 2^53 the quotient is a float without rounding, and the
    format rounds its exact value, a tie to the even digit. *)
Definition size_cents (size : nat) : Z :=
  round_half_even (Z.of_nat size * 100) 1024.

Definition two_digits (z : Z) : string :=
  (if (z <? 10)%Z then "0" else "") ++ Py.str_int z.

(** [f"{x:.2f}"] for the hundredths [c] of [x]. *)
Definition format_2f (c : Z) : string :=
  Py.str_int (c / 100) ++ "." ++ two_digits (c mod 100).

(** Line 94. *)
Definition size_line (file : File) : string :=
  "📏 **Size:** " ++ format_2f (size_cents (size file)) ++ " KB".

(** Line 96: [df.shape] is the row count and the column count. *)
Definition shape_line (df : DataFrame) : string :=
  "🔢 **Rows & Columns:** " ++ Py.str_int (Z.of_nat (nrows df)) ++ " rows × "
    ++ Py.str_int (Z.of_nat (ncols df)) ++ " columns".

(** [df.head()]: the first five rows. *)
Definition head (df : DataFrame) : DataFrame :=
  {| index := firstn 5 (index df);
     columns :=
       map (fun c => {| col_name := col_name c; col_dtype := col_dtype c;
                        col_values := firstn 5 (col_values c) |})
           (columns df) |}.

End Display.

(** ** Filling, column by column

    The description of [fillMissingNumeric] by columns, to compare with the
    label-based assignment of lines 117 and 118. *)

Module Columnwise.
Import Pandas App.

(** A column filled with its own mean; a column without any number is left
    as it is. *)
Definition fill_series (c : Series) : result Series :=
  match series_mean (col_values c) with
  | Some q => series_fillna q c
  | None => ret c
  end.

(** The numeric columns are filled from left to right, the others are
    kept. *)
Fixpoint fill_columns (cs : list Series) : result (list Series) :=
  match cs with
  | [] => ret []
  | c :: cs' =>
      bind (if is_number (col_dtype c) then fill_series c else ret c)
           (fun c' => bind (fill_columns cs') (fun r => ret (c' :: r)))
  end.

Definition fill_columnwise (df : DataFrame) : result DataFrame :=
  bind (fill_columns (columns df))
       (fun cs => ret {| index := index df; columns := cs |}).

(** A nullable integer column with a missing cell whose numbers have a mean
    that is not a whole number. *)
Definition fractional_gap (c : Series) : bool :=
  match col_dtype c, series_mean (col_values c) with
  | Int64, Some q => existsb isna (col_values c) && negb (is_integral q)
  | _, _ => false
  end.

(** The cells a column of a given type holds after the load. *)
Definition typed_cell (d : dtype) (v : value) : Prop :=
  match d with
  | Int64 => v = NA \/ exists z, v = VInt z
  | Float64 => v = NA \/ exists q, v = VFloat q
  | object => exists s, v = VStr s
  | _ => True
  end.

(** The sum of the absolute values of the integers of a column. *)
Definition abs_sum (vs : list value) : Z :=
  fold_right (fun v acc => match v with
                           | VInt z => (Z.abs z + acc)%Z
                           | _ => acc
                           end) 0%Z vs.

(** The nullable integer columns hold integers and missing cells, and the
    integers of each are small: their absolute values sum to less than 2^53.
    The mean the code computes in float64 is then a whole number exactly
    when the mean of the integers is, and is that mean when it is whole. *)
Definition small_integers (df : DataFrame) : Prop :=
  forall c, In c (columns df) -> col_dtype c = Int64 ->
            (forall v, In v (col_values c) -> typed_cell Int64 v)
            /\ (abs_sum (col_values c) < 2 ^ 53)%Z.

(** The events of the uploads' runs, one after the other. *)
Definition events_of (E : Engine) (ui : string -> Controls)
  (uploaded_files : list File) : list Event :=
  flat_map (fun file => fst (process_file E file (ui (name file))))
           uploaded_files.

(** The message of line 163. *)
Definition closing : Event :=
  st_success "🎉 All files processed successfully!".

End Columnwise.

(** ** Facts about masks and rows *)

Module Rows.
Import Pandas App Spec.

Lemma mask_filter_length {A B : Type} (mask : list bool) (l : list A)
  (l' : list B) :
  List.length l = List.length l' ->
  List.length (mask_filter mask l) = List.length (mask_filter mask l').
Proof.
  revert l l'.
  induction mask as [| b mask IH]; intros [| a l] [| a' l'] H;
    simpl in *; try discriminate; auto.
  destruct b; simpl; auto.
Qed.

Lemma mask_filter_all {A : Type} (l : list A) (n : nat) :
  (List.length l <= n)%nat -> mask_filter (repeat true n) l = l.
Proof.
  revert n.
  induction l as [| a l IH]; intros [| n] H; simpl in *; try lia; auto.
  f_equal. apply IH. lia.
Qed.

Lemma mask_filter_dropped {A : Type} (mask : list bool) (l : list A) :
  List.length mask = List.length l ->
  (List.length (mask_filter mask l) + dropped mask = List.length l)%nat.
Proof.
  unfold dropped. revert l.
  induction mask as [| b mask IH]; intros [| a l] H;
    simpl in *; try discriminate; auto.
  injection H as H. specialize (IH l H).
  destruct b; simpl; lia.
Qed.

Lemma transpose_length (n : nat) (cols : list (list value)) :
  List.length (transpose n cols) = n.
Proof.
  revert cols. induction n as [| n IH]; intros cols; simpl; auto.
Qed.

(** Taking the rows of the masked columns is masking the rows. *)
Lemma transpose_mask_filter (mask : list bool) :
  forall (idx : list nat) (cols : list (list value)),
    List.length mask = List.length idx ->
    Forall (fun c => List.length c = List.length idx) cols ->
    transpose (List.length (mask_filter mask idx))
              (map (mask_filter mask) cols)
    = mask_filter mask (transpose (List.length idx) cols).
Proof.
  induction mask as [| b mask IH]; intros [| i idx] cols Hlen Hcols;
    try discriminate; [reflexivity |].
  injection Hlen as Hlen. simpl List.length in Hcols.
  assert (Htl : Forall (fun c => List.length c = List.length idx)
                       (map (@tl value) cols)).
  { rewrite Forall_forall in *. intros c Hc.
    apply in_map_iff in Hc. destruct Hc as [c0 [<- Hc0]].
    apply Hcols in Hc0. destruct c0; simpl in *; [discriminate | lia]. }
  assert (Hmap : forall b0,
             map (mask_filter (b0 :: mask)) cols
             = if b0
               then map (fun c => hd NA c :: mask_filter mask (tl c)) cols
               else map (mask_filter mask) (map (@tl value) cols)).
  { intros b0. destruct b0.
    - apply map_ext_in. intros c Hc.
      rewrite Forall_forall in Hcols. apply Hcols in Hc.
      destruct c; simpl in *; [discriminate | reflexivity].
    - rewrite map_map. apply map_ext_in. intros c Hc.
      rewrite Forall_forall in Hcols. apply Hcols in Hc.
      destruct c; simpl in *; [discriminate | reflexivity]. }
  rewrite Hmap. destruct b; simpl.
  - f_equal.

    + rewrite map_map. reflexivity.
    + rewrite map_map. simpl.
      rewrite <- (map_map (@tl value) (mask_filter mask)).
      apply IH; assumption.
  - apply IH; assumption.
Qed.

Lemma rows_length (df : DataFrame) : List.length (rows df) = nrows df.
Proof. apply transpose_length. Qed.

Lemma duplicated_from_length (rs : list row) :
  forall seen, List.length (duplicated_from seen rs) = List.length rs.
Proof.
  induction rs as [| r rs IH]; intros seen; simpl; auto.
Qed.

Lemma getitem_mask_values (mask : list bool) (df : DataFrame) :
  map col_values (columns (getitem_mask mask df))
  = map (mask_filter mask) (map col_values (columns df)).
Proof.
  unfold getitem_mask; simpl. rewrite !map_map. reflexivity.
Qed.

Lemma getitem_mask_rows (mask : list bool) (df : DataFrame) :
  rectangular df ->
  List.length mask = nrows df ->
  rows (getitem_mask mask df) = mask_filter mask (rows df).
Proof.
  intros Hwf Hlen. unfold rows at 1.
  rewrite getitem_mask_values.
  unfold nrows at 1. simpl index.
  apply transpose_mask_filter; [exact Hlen |].
  unfold rectangular in Hwf. rewrite Forall_forall in *.
  intros c Hc. apply in_map_iff in Hc. destruct Hc as [s [<- Hs]].
  apply Hwf; assumption.
Qed.

Lemma getitem_mask_rectangular (mask : list bool) (df : DataFrame) :
  rectangular df -> rectangular (getitem_mask mask df).
Proof.
  unfold rectangular, getitem_mask, nrows; simpl. intros Hwf.
  rewrite Forall_forall in *. intros c Hc.
  apply in_map_iff in Hc. destruct Hc as [s [<- Hs]]. simpl.
  apply mask_filter_length. apply Hwf; assumption.
Qed.

Lemma getitem_mask_all (df : DataFrame) :
  rectangular df -> getitem_mask (repeat true (nrows df)) df = df.
Proof.
  intros Hwf. destruct df as [idx cs]. unfold getitem_mask, nrows; simpl.
  f_equal.
  - apply mask_filter_all. lia.
  - unfold rectangular, nrows in Hwf; simpl in Hwf.
    induction Hwf as [| c cs Hc _ IH]; simpl; auto.
    f_equal; [| exact IH].
    destruct c as [k d vs]; simpl in *. f_equal.
    apply mask_filter_all. lia.
Qed.

Lemma kept_cons (seen : list row) (r : row) (rs : list row) :
  kept seen (r :: rs)
  = if in_dec row_eq_dec r seen then kept (r :: seen) rs
    else r :: kept (r :: seen) rs.
Proof.
  unfold kept; simpl. destruct (in_dec row_eq_dec r seen); reflexivity.
Qed.

Lemma kept_not_seen (rs : list row) :
  forall seen r, In r (kept seen rs) -> ~ In r seen.
Proof.
  induction rs as [| r0 rs IH]; intros seen r Hin.
  - destruct Hin.
  - rewrite kept_cons in Hin.
    destruct (in_dec row_eq_dec r0 seen) as [Hs | Hs].
    + intros H. apply (IH _ _ Hin). right. exact H.
    + destruct Hin as [<- | Hin]; [exact Hs |].
      intros H. apply (IH _ _ Hin). right. exact H.
Qed.

Lemma kept_NoDup (rs : list row) : forall seen, NoDup (kept seen rs).
Proof.
  induction rs as [| r rs IH]; intros seen.
  - constructor.
  - rewrite kept_cons. destruct (in_dec row_eq_dec r seen).
    + apply IH.
    + constructor; [| apply IH].
      intros H. apply kept_not_seen in H. apply H. left. reflexivity.
Qed.

Lemma kept_In (rs : list row) :
  forall seen r, In r rs -> In r seen \/ In r (kept seen rs).
Proof.
  induction rs as [| r0 rs IH]; intros seen r Hin.
  - destruct Hin.
  - rewrite kept_cons. destruct Hin as [<- | Hin].
    + destruct (in_dec row_eq_dec r0 seen); [left | right; left]; auto.
    + destruct (IH (r0 :: seen) r Hin) as [[<- | H] | H].
      * destruct (in_dec row_eq_dec r0 seen); [left | right; left]; auto.
      * left; exact H.
      * right. destruct (in_dec row_eq_dec r0 seen); [| right]; exact H.
Qed.

Lemma kept_incl (rs : list row) :
  forall seen r, In r (kept seen rs) -> In r rs.
Proof.
  induction rs as [| r0 rs IH]; intros seen r Hin.
  - destruct Hin.
  - rewrite kept_cons in Hin.
    destruct (in_dec row_eq_dec r0 seen).
    + right. eapply IH; eauto.
    + destruct Hin as [<- | Hin]; [left; reflexivity | right].
      eapply IH; eauto.
Qed.

(** On its own output, [duplicated] marks nothing. *)
Lemma duplicated_kept (rs : list row) :
  forall seen seen',
    (forall r, In r seen' -> In r seen) ->
    duplicated_from seen' (kept seen rs)
    = repeat false (List.length (kept seen rs)).
Proof.
  induction rs as [| r rs IH]; intros seen seen' Hsub.
  - reflexivity.
  - rewrite kept_cons. destruct (in_dec row_eq_dec r seen) as [Hs | Hs].
    + apply IH. intros x Hx. right. apply Hsub; exact Hx.
    + simpl. destruct (in_dec row_eq_dec r seen') as [Hs' | Hs'].
      * exfalso. apply Hs. apply Hsub. exact Hs'.
      * f_equal. apply IH. intros x [<- | Hx]; [left | right]; auto.
Qed.

(** A row is marked exactly when an equal row stands before it or was seen
    already. *)
Lemma duplicated_from_nth (rs : list row) :
  forall seen i,
    (i < List.length rs)%nat ->
    nth i (duplicated_from seen rs) false = true
    <-> (In (nth i rs []) seen
         \/ exists j, (j < i)%nat /\ nth j rs [] = nth i rs []).
Proof.
  induction rs as [| r rs IH]; intros seen i Hi; simpl in Hi; [lia |].
  destruct i as [| i]; simpl.
  - destruct (in_dec row_eq_dec r seen) as [Hs | Hs]; split.
    + intros _. left. exact Hs.
    + reflexivity.
    + discriminate.
    + intros [H | [j [Hj _]]]; [contradiction | lia].
  - rewrite IH by lia. split.
    + intros [[H | H] | [j [Hj Heq]]].
      * right. exists 0%nat. split; [lia | exact H].
      * left. exact H.
      * right. exists (S j). split; [lia | exact Heq].
    + intros [H | [j [Hj Heq]]].
      * left. right. exact H.
      * destruct j as [| j].
        -- left. left. exact Heq.
        -- right. exists j. split; [lia | exact Heq].
Qed.

Lemma nth_map_negb (l : list bool) (i : nat) :
  (i < List.length l)%nat ->
  nth i (map negb l) false = negb (nth i l false).
Proof.
  revert i. induction l as [| b l IH]; intros [| i] H; simpl in *;
    try lia; auto.
  apply IH. lia.
Qed.

End Rows.

(** ** [drop_duplicates] *)

Module Duplicates.
Import Pandas App Spec Rows.

Lemma transpose_nth (n : nat) :
  forall (cols : list (list value)) (i : nat),
    (i < n)%nat ->
    nth i (transpose n cols) [] = map (fun c => nth i c NA) cols.
Proof.
  induction n as [| n IH]; intros cols i Hi; [lia |].
  destruct i as [| i]; simpl.
  - apply map_ext. intros [| v c]; reflexivity.
  - rewrite IH by lia. rewrite map_map. apply map_ext.
    intros [| v c]; simpl; [destruct i |]; reflexivity.
Qed.

(** The [i]-th row holds the [i]-th cell of every column. *)
Lemma rows_nth (df : DataFrame) (i : nat) :
  (i < nrows df)%nat ->
  nth i (rows df) [] = map (fun c => nth i (col_values c) NA) (columns df).
Proof.
  intros Hi. unfold rows. rewrite transpose_nth by exact Hi.
  rewrite map_map. reflexivity.
Qed.

Lemma duplicated_length (df : DataFrame) :
  List.length (map negb (duplicated df)) = nrows df.
Proof.
  unfold duplicated.
  rewrite length_map, duplicated_from_length. apply rows_length.
Qed.

Lemma drop_duplicates_rows (df : DataFrame) :
  rectangular df ->
  columns df <> [] ->
  rows (drop_duplicates df) = kept [] (rows df).
Proof.
  intros Hwf Hcols. unfold drop_duplicates.
  destruct (empty df) eqn:He.
  - unfold empty in He. apply orb_true_iff in He.
    destruct He as [He | He]; apply Nat.eqb_eq in He.
    + unfold rows. rewrite He. reflexivity.
    + unfold ncols in He. destruct (columns df); [congruence | discriminate].
  - apply getitem_mask_rows; [exact Hwf | apply duplicated_length].
Qed.

Lemma drop_duplicates_rectangular (df : DataFrame) :
  rectangular df -> rectangular (drop_duplicates df).
Proof.
  intros Hwf. unfold drop_duplicates.
  destruct (empty df); [exact Hwf | apply getitem_mask_rectangular, Hwf].
Qed.

Lemma map_negb_repeat_false (n : nat) :
  map negb (repeat false n) = repeat true n.
Proof. induction n; simpl; congruence. Qed.

Lemma drop_duplicates_fixpoint (df : DataFrame) :
  rectangular df -> drop_duplicates (drop_duplicates df) = drop_duplicates df.
Proof.
  intros Hwf.
  destruct (empty df) eqn:He.
  - unfold drop_duplicates. rewrite He, He. reflexivity.
  - set (df' := getitem_mask (map negb (duplicated df)) df).
    assert (Hd : drop_duplicates df = df')
      by (unfold drop_duplicates; rewrite He; reflexivity).
    rewrite Hd.
    assert (Hwf' : rectangular df') by (apply getitem_mask_rectangular, Hwf).
    unfold drop_duplicates. destruct (empty df'); [reflexivity |].
    assert (Hrows : rows df' = kept [] (rows df)).
    { apply getitem_mask_rows; [exact Hwf | apply duplicated_length]. }
    unfold duplicated at 1. rewrite Hrows.
    rewrite (duplicated_kept (rows df) [] []) by auto.
    rewrite map_negb_repeat_false, <- Hrows, rows_length.
    apply getitem_mask_all, Hwf'.
Qed.

(** C4: [removeDuplicates] is idempotent.  On the output of
    [drop_duplicates], a second [drop_duplicates] returns the same frame, and
    the button's message reports 0 removed rows. *)
Theorem drop_duplicates_idempotent (df : DataFrame) (Hwf : rectangular df) :
  drop_duplicates (drop_duplicates df) = drop_duplicates df
  /\ remove_duplicates_button (drop_duplicates df)
     = ([st_success "✅ Removed 0 duplicate rows."],
        inr (drop_duplicates df)).
Proof.
  pose proof (drop_duplicates_fixpoint df Hwf) as Hfix.
  split; [exact Hfix |].
  unfold remove_duplicates_button. rewrite Hfix.
  rewrite Z.sub_diag. reflexivity.
Qed.

Lemma drop_duplicates_idempotent_witness :
  rectangular repeated_rows
  /\ drop_duplicates (drop_duplicates repeated_rows)
     = drop_duplicates repeated_rows
  /\ remove_duplicates_button (drop_duplicates repeated_rows)
     = ([st_success "✅ Removed 0 duplicate rows."],
        inr (drop_duplicates repeated_rows)).
Proof.
  assert (Hwf : rectangular repeated_rows)
    by (repeat constructor).
  split; [exact Hwf | exact (drop_duplicates_idempotent repeated_rows Hwf)].
Defined.

(** C7: [removeDuplicates] compares whole rows, keeps the first of equal
    rows and the order of the rows it keeps, and reports the row count before
    minus the row count after.  For a frame with a column, there is a mask
    [keep] over the rows such that row [i] is kept exactly when no row before
    it has the same cells in all columns; the frame's labels and rows become
    the kept ones, in order; no row is left twice; the columns keep their
    labels; and the message shows the difference of the row counts, which is
    the number of rows the mask drops. *)
Theorem drop_duplicates_keeps_first_rows (df : DataFrame)
  (Hwf : rectangular df) (Hcols : columns df <> []) :
  exists keep : list bool,
    List.length keep = nrows df
    /\ (forall i, (i < nrows df)%nat ->
          nth i (rows df) []
          = map (fun c => nth i (col_values c) NA) (columns df))
    /\ (forall i, (i < nrows df)%nat ->
          (nth i keep false = true
           <-> forall j, (j < i)%nat -> nth j (rows df) [] <> nth i (rows df) []))
    /\ index (drop_duplicates df) = mask_filter keep (index df)
    /\ rows (drop_duplicates df) = mask_filter keep (rows df)
    /\ column_names (drop_duplicates df) = column_names df
    /\ NoDup (rows (drop_duplicates df))
    /\ remove_duplicates_button df
       = ([st_success
             ("✅ Removed "
                ++ Py.str_int (Z.of_nat (nrows df)
                               - Z.of_nat (nrows (drop_duplicates df)))
                ++ " duplicate rows.")],
          inr (drop_duplicates df))
    /\ (Z.of_nat (nrows df) - Z.of_nat (nrows (drop_duplicates df))
        = Z.of_nat (dropped keep))%Z.
Proof.
  exists (map negb (duplicated df)).
  pose proof (duplicated_length df) as Hlen.
  assert (Hidx : index (drop_duplicates df)
                 = mask_filter (map negb (duplicated df)) (index df)).
  { unfold drop_duplicates. destruct (empty df) eqn:He; [| reflexivity].
    unfold empty in He. apply orb_true_iff in He.
    destruct He as [He | He]; apply Nat.eqb_eq in He.
    - unfold nrows in He. destruct (index df); [| discriminate].
      destruct (map negb (duplicated df)); reflexivity.
    - unfold ncols in He. destruct (columns df); [congruence | discriminate]. }
  assert (Hbound : forall i, (i < nrows df)%nat ->
                     (i < List.length (duplicated df))%nat
                     /\ (i < List.length (rows df))%nat).
  { intros i Hi. unfold duplicated.
    rewrite duplicated_from_length, rows_length. split; exact Hi. }
  split; [exact Hlen |].
  split; [intros i Hi; apply rows_nth, Hi |].
  split.
  { intros i Hi. destruct (Hbound i Hi) as [Hi1 Hi2].
    rewrite nth_map_negb by exact Hi1.
    rewrite negb_true_iff.
    pose proof (duplicated_from_nth (rows df) [] i Hi2) as Hnth.
    fold (duplicated df) in Hnth. split.
    - intros Hk j Hj Heq.
      assert (Hd : nth i (duplicated df) false = true)
        by (apply Hnth; right; exists j; split; assumption).
      congruence.
    - intros Hfirst. apply not_true_is_false. intros Hd.
      apply Hnth in Hd. destruct Hd as [[] | [j [Hj Heq]]].
      exact (Hfirst j Hj Heq). }
  split; [exact Hidx |].
  split; [apply drop_duplicates_rows; assumption |].
  split.
  { unfold drop_duplicates, column_names.
    destruct (empty df); [reflexivity |].
    unfold getitem_mask; simpl. rewrite map_map. reflexivity. }
  split.
  { rewrite drop_duplicates_rows by assumption. apply kept_NoDup. }
  split; [reflexivity |].
  unfold nrows at 2. rewrite Hidx.
  pose proof (mask_filter_dropped (map negb (duplicated df)) (index df) Hlen)
    as Hd.
  unfold nrows. lia.
Qed.

Lemma drop_duplicates_keeps_first_rows_witness :
  rectangular repeated_rows
  /\ columns repeated_rows <> []
  /\ exists keep : list bool,
       List.length keep = nrows repeated_rows
       /\ rows (drop_duplicates repeated_rows)
          = mask_filter keep (rows repeated_rows)
       /\ (Z.of_nat (nrows repeated_rows)
           - Z.of_nat (nrows (drop_duplicates repeated_rows))
           = Z.of_nat (dropped keep))%Z.
Proof.
  assert (Hwf : rectangular repeated_rows) by (repeat constructor).
  assert (Hcols : columns repeated_rows <> []) by discriminate.
  split; [exact Hwf |]. split; [exact Hcols |].
  destruct (drop_duplicates_keeps_first_rows repeated_rows Hwf Hcols)
    as [keep [H1 [_ [_ [_ [H5 [_ [_ [_ H9]]]]]]]]].
  exists keep. repeat split; assumption.
Defined.

End Duplicates.

(** ** Column selection *)

Module Selection.
Import Pandas App Spec.

Lemma filter_has_name_absent (k : string) (cs : list Series) :
  ~ In k (map col_name cs) -> filter (has_name k) cs = [].
Proof.
  induction cs as [| c cs IH]; intros Hk; simpl in *; [reflexivity |].
  unfold has_name at 1.
  destruct (String.eqb_spec (col_name c) k) as [He | He].
  - exfalso. apply Hk. left. exact He.
  - apply IH. intros H. apply Hk. right. exact H.
Qed.

(** With distinct labels, a label selects its own column and no other. *)
Lemma filter_has_name_unique (cs : list Series) (c : Series) :
  NoDup (map col_name cs) -> In c cs ->
  filter (has_name (col_name c)) cs = [c].
Proof.
  induction cs as [| a cs IH]; intros Hnd Hin; [destruct Hin |].
  simpl in Hnd. apply NoDup_cons_iff in Hnd. destruct Hnd as [Ha Hnd].
  simpl. unfold has_name at 1.
  destruct Hin as [-> | Hin].
  - rewrite String.eqb_refl. f_equal.
    apply filter_has_name_absent. exact Ha.
  - destruct (String.eqb_spec (col_name a) (col_name c)) as [He | He].
    + exfalso. apply Ha. rewrite He. apply in_map. exact Hin.
    + apply IH; assumption.
Qed.

Lemma getitem_columns_own (cs : list Series) :
  NoDup (map col_name cs) ->
  forall sel, incl sel cs ->
    getitem_columns (map col_name sel) cs = ret sel.
Proof.
  intros Hnd sel. induction sel as [| c sel IH]; intros Hincl.
  - reflexivity.
  - simpl. rewrite (filter_has_name_unique cs c Hnd)
      by (apply Hincl; left; reflexivity).
    rewrite IH by (intros x Hx; apply Hincl; right; exact Hx).
    reflexivity.
Qed.

(** C8: [selectColumns] with the table's own column list is the identity.
    For a frame with distinct column labels, [df[df.columns]] returns the
    frame itself, and so does the selection of a run whose multiselect shows
    its default. *)
Theorem select_all_columns_identity (df : DataFrame)
  (Hlabels : unique_labels df) :
  getitem (column_names df) df = ret df
  /\ select_columns untouched df = ret df.
Proof.
  assert (H : getitem (column_names df) df = ret df).
  { unfold getitem, column_names.
    rewrite (getitem_columns_own (columns df) Hlabels (columns df))
      by apply incl_refl.
    destruct df; reflexivity. }
  split; exact H.
Qed.

Lemma select_all_columns_identity_witness :
  unique_labels repeated_rows
  /\ getitem (column_names repeated_rows) repeated_rows = ret repeated_rows
  /\ select_columns untouched repeated_rows = ret repeated_rows.
Proof.
  assert (Hlabels : unique_labels repeated_rows).
  { unfold unique_labels, column_names; simpl.
    repeat constructor; simpl; intuition discriminate. }
  split; [exact Hlabels |].
  exact (select_all_columns_identity repeated_rows Hlabels).
Defined.

Lemma transpose_no_columns (n : nat) : transpose n [] = repeat [] n.
Proof.
  induction n as [| n IH]; simpl; [reflexivity |].
  f_equal. exact IH.
Qed.

(** C9: [selectColumns] with the empty list does not fail; it yields a frame
    with zero columns and the row count of the input.  When every column is
    taken out of the multiselect, the selection of lines 123 and 124 returns
    the frame without columns, with the row labels of the frame and empty
    rows; so does the whole transformation when cleaning is off, and a run
    for a loaded file that does not convert shows nothing and returns. *)
Theorem select_no_columns (ctl : Controls) (df : DataFrame)
  (Hsel : selected_columns ctl = Some []) :
  select_columns ctl df = ret {| index := index df; columns := [] |}
  /\ (forall df',
        select_columns ctl df = ret df' ->
        ncols df' = 0%nat
        /\ nrows df' = nrows df
        /\ index df' = index df
        /\ rows df' = repeat [] (nrows df))
  /\ (enable_cleaning ctl = false ->
      transform ctl df = ([], ret {| index := index df; columns := [] |}))
  /\ (forall (E : Engine) (file : File),
        load E file = ret df ->
        enable_cleaning ctl = false ->
        convert ctl = false ->
        process_file E file ctl = ([], ret tt)).
Proof.
  assert (Hs : select_columns ctl df
               = ret {| index := index df; columns := [] |}).
  { unfold select_columns. rewrite Hsel. reflexivity. }
  assert (Ht : enable_cleaning ctl = false ->
               transform ctl df
               = ([], ret {| index := index df; columns := [] |})).
  { intros Hc. unfold transform, cleaning. rewrite Hc.
    cbv [done andthen lift]. cbn [ret app]. rewrite Hs. reflexivity. }
  split; [exact Hs |]. split; [| split; [exact Ht |]].
  - intros df' Hdf'. rewrite Hs in Hdf'. unfold ret in Hdf'.
    injection Hdf' as <-.
    repeat split. unfold rows; simpl. apply transpose_no_columns.
  - intros E file Hload Hc Hconv. unfold process_file.
    rewrite Hload. cbn [ret]. rewrite (Ht Hc). cbn [andthen ret].
    rewrite Hconv. reflexivity.
Qed.

Lemma select_no_columns_witness :
  selected_columns select_nothing = Some []
  /\ select_columns select_nothing repeated_rows
     = ret {| index := [0; 1; 2; 3]%nat; columns := [] |}
  /\ ncols repeated_rows = 2%nat
  /\ nrows repeated_rows = 4%nat.
Proof.
  assert (Hsel : selected_columns select_nothing = Some []) by reflexivity.
  split; [exact Hsel |].
  split; [exact (proj1 (select_no_columns select_nothing repeated_rows Hsel))
         |].
  split; reflexivity.
Defined.

End Selection.

(** ** The name of the download *)

Module Naming.
Import Pandas App Spec.

(** C1: the download's name should be the original stem followed by [.csv]
    or [.xlsx].  For the upload [data.csv] converted to Excel the script
    names the download [data.excel]: the new extension is the lower-cased
    label of the radio button, not the workbook extension.  The stem is
    [data], and the MIME type is the workbook one. *)
Theorem file_name_uses_radio_label :
  file_name "data.csv" Excel = "data.excel"
  /\ stem "data.csv" = "data"
  /\ file_name "data.csv" Excel <> stem "data.csv" ++ ".xlsx"
  /\ mime_type Excel
     = "application/vnd.openxmlformats-officedocument.spreadsheetml.sheet".
Proof.
  repeat split. vm_compute. discriminate.
Qed.

(** The replaced text is the lower-cased extension, and every occurrence of
    it is replaced: an upper-case extension is left in place, and a name that
    holds the extension twice is changed twice. *)
Lemma file_name_replaces_occurrences :
  file_name "DATA.CSV" CSV = "DATA.CSV"
  /\ file_name "a.xlsx.xlsx" CSV = "a.csv.csv"
  /\ file_name "data.xlsx" CSV = "data.csv"
  /\ file_name "data.csv" CSV = "data.csv".
Proof. repeat split. Qed.

End Naming.

(** ** The run of the script on concrete uploads *)

Module Scenario.
Import Pandas App Spec.

(** The frame the scenario's text loads as: [convert_dtypes] gives the
    column [b], read as floats because of its empty cell, the nullable
    integer type. *)
Lemma scenario_load :
  load text_engine (upload "data.csv" scenario_csv)
  = ret {| index := [0; 1; 2]%nat;
           columns :=
             [ {| col_name := "a"; col_dtype := Int64;
                  col_values := [VInt 1; VInt 2; VInt 1] |};
               {| col_name := "b"; col_dtype := Int64;
                  col_values := [NA; VInt 5; VInt 5] |} ] |}.
Proof. reflexivity. Qed.

(** C2, as the code has it.  For the text [a,b / 1, / 2,5 / 1,5]: the load
    gives the frame whose column [b] is a nullable integer column with a
    missing cell; the run of the click on Remove Duplicates reports 0 removed
    rows, and the frame is unchanged; filling it (the run of the click on
    Fill Missing Values) puts 5, the mean of 5 and 5, into the missing cell,
    as an integer; the CSV text of the filled frame is [a,b / 1,5 / 2,5 /
    1,5], header and three rows in the column order, the integers without a
    decimal point; and this text, uploaded and converted to CSV, loads as the
    filled frame and is downloaded as it is. *)
Theorem scenario_steps :
  load text_engine (upload "data.csv" scenario_csv) = ret scenario_loaded
  /\ process_file text_engine (upload "data.csv" scenario_csv)
                  press_remove_duplicates
     = ([st_success "✅ Removed 0 duplicate rows."], ret tt)
  /\ drop_duplicates scenario_loaded = scenario_loaded
  /\ fill_missing_values (drop_duplicates scenario_loaded)
     = ret scenario_filled
  /\ process_file text_engine (upload "data.csv" scenario_csv)
                  press_fill_missing
     = ([st_success "✅ Missing values filled with column means."], ret tt)
  /\ to_csv scenario_filled = filled_csv
  /\ load text_engine (upload "filled.csv" filled_csv) = ret scenario_filled
  /\ process_file text_engine (upload "filled.csv" filled_csv)
                  (press_convert CSV)
     = ([st_download_button "⬇ Download filled.csv as CSV" filled_csv
                            "filled.csv" "text/csv"],
        ret tt).
Proof. repeat split; vm_compute; reflexivity. Qed.

(** The download of the scenario is not [a,b / 1,5.0 / 2,5.0 / 1,5.0].  A
    run has one click: the runs of the clicks on Remove Duplicates and on
    Fill Missing Values offer no download, and the run of the click on
    Convert, which loads the upload again, downloads the upload as it is,
    with its empty cell.  Nor is the CSV text of the filled frame the text
    with [5.0]. *)
Lemma scenario_download_is_the_upload :
  one_click press_remove_duplicates
  /\ one_click press_fill_missing
  /\ one_click (press_convert CSV)
  /\ downloads
       (fst (process_file text_engine (upload "data.csv" scenario_csv)
                          press_remove_duplicates))
     = []
  /\ downloads
       (fst (process_file text_engine (upload "data.csv" scenario_csv)
                          press_fill_missing))
     = []
  /\ downloads
       (fst (process_file text_engine (upload "data.csv" scenario_csv)
                          (press_convert CSV)))
     = [scenario_csv]
  /\ scenario_csv <> float_csv
  /\ to_csv scenario_filled <> float_csv.
Proof.
  split; [right; right; split; reflexivity |].
  split; [right; left; split; reflexivity |].
  split; [left; split; reflexivity |].
  repeat split; vm_compute; try reflexivity; discriminate.
Qed.

(** C3, at a failing input: in the text [a,b / 1,x / ,y / 2,z] the column
    [a] loads as a nullable integer column with a missing cell and the
    numbers 1 and 2.  Their mean 1.5 is not a whole number, so filling raises
    [TypeError] and no cell is filled; the run of the script ends there, also
    the run of the click on Fill Missing Values alone. *)
Theorem fill_missing_raises_on_fractional_mean :
  exists df,
    load text_engine (upload "data.csv" fractional_csv) = ret df
    /\ find (has_name "a") (columns df)
       = Some {| col_name := "a"; col_dtype := Int64;
                 col_values := [VInt 1; NA; VInt 2] |}
    /\ series_mean [VInt 1; NA; VInt 2] = Some (Q2Qc (3 # 2))
    /\ fill_missing_values df
       = raise "TypeError" "Invalid value '1.5' for dtype Int64"
    /\ process_file text_engine (upload "data.csv" fractional_csv)
                    clean_to_csv
       = ([st_success "✅ Removed 0 duplicate rows."],
          raise "TypeError" "Invalid value '1.5' for dtype Int64")
    /\ process_file text_engine (upload "data.csv" fractional_csv)
                    press_fill_missing
       = ([], raise "TypeError" "Invalid value '1.5' for dtype Int64").
Proof.
  eexists. split; [reflexivity |].
  split; [reflexivity |].
  split; [apply f_equal with (f := @Some Qc), Qc_is_canon; reflexivity |].
  split; [| split]; vm_compute; reflexivity.
Qed.


End Scenario.

(** ** Loading and its errors *)

Module Loading.
Import Pandas App Spec.

Lemma prefix_refl (s : string) : prefix s s = true.
Proof.
  induction s as [| c s IH]; simpl; [reflexivity |].
  destruct (ascii_dec c c); [exact IH | congruence].
Qed.

Lemma contains_here (sub s : string) :
  prefix sub s = true -> Py.contains sub s = true.
Proof.
  destruct s as [| c s]; intros H.
  - destruct sub; [reflexivity | discriminate].
  - cbn [Py.contains]. rewrite H. reflexivity.
Qed.

Lemma prefix_append (s t : string) : prefix s (s ++ t) = true.
Proof.
  induction s as [| c s IH]; simpl.
  - destruct t; reflexivity.
  - destruct (ascii_dec c c); [exact IH | congruence].
Qed.

Lemma contains_skip (sub pre s : string) :
  Py.contains sub s = true -> Py.contains sub (pre ++ s) = true.
Proof.
  intros H. induction pre as [| c pre IH]; simpl; [exact H |].
  rewrite IH. apply orb_true_r.
Qed.

Lemma message_names_file (file : File) (e : Exception) :
  Py.contains (name file) (load_error_message file e) = true.
Proof.
  unfold load_error_message.
  apply contains_skip, contains_here, prefix_append.
Qed.

Lemma message_gives_cause (file : File) (e : Exception) :
  Py.contains (exc_msg e) (load_error_message file e) = true.
Proof.
  unfold load_error_message.
  do 3 apply contains_skip. apply contains_here, prefix_refl.
Qed.

(** C5: load dispatches on the lower-cased extension of the file name,
    [.csv] to the CSV reader and anything else to the workbook reader; when
    the reader raises, the file's run shows one error message, which holds
    the file name and the text of the exception, and returns without any
    further step. *)
Theorem load_dispatch_and_error (E : Engine) (file : File) :
  (Py.lower (snd (Py.splitext (name file))) = ".csv" ->
   load E file
   = bind (read_csv E (content file)) (fun df => ret (normalize df)))
  /\ (Py.lower (snd (Py.splitext (name file))) <> ".csv" ->
      load E file
      = bind (read_excel E (content file)) (fun df => ret (normalize df)))
  /\ (forall e ctl,
        load E file = inl e ->
        (read_csv E (content file) = inl e
         \/ read_excel E (content file) = inl e)
        /\ process_file E file ctl
           = ([st_error (load_error_message file e)], ret tt)
        /\ Py.contains (name file) (load_error_message file e) = true
        /\ Py.contains (exc_msg e) (load_error_message file e) = true).
Proof.
  unfold load, file_extension.
  split; [| split].
  - intros ->. reflexivity.
  - intros Hext. apply String.eqb_neq in Hext. rewrite Hext. reflexivity.
  - intros e ctl Hload.
    split; [| split; [| split]].
    + destruct (_ =? ".csv").
      * left. destruct (read_csv E (content file)); [exact Hload | discriminate].
      * right.
        destruct (read_excel E (content file)); [exact Hload | discriminate].
    + unfold process_file, load, file_extension. rewrite Hload. reflexivity.
    + apply message_names_file.
    + apply message_gives_cause.
Qed.

Lemma load_dispatch_and_error_witness :
  load text_engine (upload "REPORT.CSV" scenario_csv)
  = bind (PlainCsv.read_csv_plain scenario_csv) (fun df => ret (normalize df))
  /\ load text_engine (upload "data.txt" scenario_csv)
     = raise "ImportError" missing_openpyxl
  /\ process_file text_engine (upload "data.txt" scenario_csv) untouched
     = ([st_error (load_error_message
                     (upload "data.txt" scenario_csv)
                     {| exc_type := "ImportError";
                        exc_msg := missing_openpyxl |})],
        ret tt).
Proof.
  destruct (load_dispatch_and_error
              text_engine (upload "REPORT.CSV" scenario_csv)) as [Hcsv _].
  destruct (load_dispatch_and_error
              text_engine (upload "data.txt" scenario_csv))
    as [_ [Hother Herr]].
  split; [apply Hcsv; reflexivity |].
  split; [apply Hother; discriminate |].
  apply (Herr {| exc_type := "ImportError"; exc_msg := missing_openpyxl |}
              untouched).
  reflexivity.
Defined.

(** *** Several uploads *)

Lemma andthen_assoc {A B C : Type} (m : Run A) (k1 : A -> Run B)
  (k2 : B -> Run C) :
  andthen (andthen m k1) k2 = andthen m (fun a => andthen (k1 a) k2).
Proof.
  destruct m as [ev [e | a]]; simpl; [reflexivity |].
  destruct (k1 a) as [ev1 [e1 | b]]; simpl; [reflexivity |].
  destruct (k2 b) as [ev2 r2]. rewrite app_assoc. reflexivity.
Qed.

Lemma done_andthen {A B : Type} (a : A) (k : A -> Run B) :
  andthen (done a) k = k a.
Proof. unfold done, andthen, ret. destruct (k a); reflexivity. Qed.

Lemma process_files_app (E : Engine) (ui : string -> Controls)
  (before after : list File) :
  process_files E ui (before ++ after)
  = (process_files E ui before ;;; process_files E ui after).
Proof.
  induction before as [| f before IH]; cbn [process_files app].
  - rewrite done_andthen. reflexivity.
  - rewrite IH, andthen_assoc. reflexivity.
Qed.

(** C6, as the code has it: a load error is not fatal.  When [load] raises
    for a file, the run over the uploads is the run over the files before
    it, the error message for the file, and the run over the files after it;
    apart from that message it is the run over the other files alone. *)
Theorem load_error_is_not_fatal (E : Engine) (ui : string -> Controls)
  (before after : list File) (file : File) (e : Exception)
  (Hload : load E file = inl e) :
  process_files E ui (before ++ file :: after)
  = (process_files E ui before ;;;
     emit (st_error (load_error_message file e)) ;;;
     process_files E ui after)
  /\ process_files E ui (before ++ after)
     = (process_files E ui before ;;; process_files E ui after).
Proof.
  split; [| apply process_files_app].
  rewrite process_files_app. cbn [process_files].
  unfold process_file at 1. rewrite Hload. reflexivity.
Qed.

Lemma load_error_is_not_fatal_witness :
  load text_engine (upload "data.txt" scenario_csv)
  = raise "ImportError" missing_openpyxl
  /\ process_files text_engine (click_in "x.csv" (press_convert CSV))
       ([upload "x.csv" scenario_csv]
          ++ upload "data.txt" scenario_csv :: [upload "y.csv" scenario_csv])
     = (process_files text_engine (click_in "x.csv" (press_convert CSV))
                      [upload "x.csv" scenario_csv] ;;;
        emit (st_error (load_error_message
                          (upload "data.txt" scenario_csv)
                          {| exc_type := "ImportError";
                             exc_msg := missing_openpyxl |})) ;;;
        process_files text_engine (click_in "x.csv" (press_convert CSV))
                      [upload "y.csv" scenario_csv]).
Proof.
  assert (Hload : load text_engine (upload "data.txt" scenario_csv)
                  = raise "ImportError" missing_openpyxl) by reflexivity.
  split; [exact Hload |].
  apply (load_error_is_not_fatal
           text_engine (click_in "x.csv" (press_convert CSV))
           [upload "x.csv" scenario_csv] [upload "y.csv" scenario_csv]
           (upload "data.txt" scenario_csv) _ Hload).
Defined.

(** An error after the load ends the whole run.  The first upload's fill
    raises [TypeError]: the script stops and shows nothing for the second
    upload, not even the closing message, although the second upload alone
    yields its download.  The same happens when the workbook writer raises
    during the export, and in the run of a single click, on Fill Missing
    Values or on Convert, in the section of the first upload: the second
    upload, which alone is processed to the closing message, is not
    reached. *)
Lemma later_error_ends_the_run :
  main text_engine (fun _ => clean_to_csv)
       [upload "first.csv" fractional_csv; upload "second.csv" scenario_csv]
  = ([st_success "✅ Removed 0 duplicate rows."],
     raise "TypeError" "Invalid value '1.5' for dtype Int64")
  /\ main text_engine (fun _ => to_workbook)
          [upload "first.csv" scenario_csv; upload "second.csv" scenario_csv]
     = ([], raise "ModuleNotFoundError" no_openpyxl)
  /\ downloads
       (fst (main text_engine (fun _ => clean_to_csv)
                  [upload "second.csv" scenario_csv]))
     = [Py.unlines ["a,b"; "1,5"; "2,5"; "1,5"]]
  /\ main text_engine (click_in "first.csv" press_fill_missing)
          [upload "first.csv" fractional_csv; upload "second.csv" scenario_csv]
     = ([], raise "TypeError" "Invalid value '1.5' for dtype Int64")
  /\ main text_engine (click_in "first.csv" (press_convert Excel))
          [upload "first.csv" scenario_csv; upload "second.csv" scenario_csv]
     = ([], raise "ModuleNotFoundError" no_openpyxl)
  /\ main text_engine (click_in "first.csv" press_fill_missing)
          [upload "second.csv" scenario_csv]
     = ([st_success "🎉 All files processed successfully!"], ret tt).
Proof. repeat split; vm_compute; reflexivity. Qed.

End Loading.

(** ** The string coercion after the load *)

Module Coercion.
Import Pandas App Spec.

Lemma astype_str_idempotent (c : Series) :
  astype_str (astype_str c) = astype_str c.
Proof.
  unfold astype_str; simpl. f_equal.
  rewrite map_map. reflexivity.
Qed.

(** Columns of a frame with distinct labels are equal when their labels
    are. *)
Lemma same_label_same_column (cs : list Series) (c c' : Series) :
  NoDup (map col_name cs) -> In c cs -> In c' cs ->
  col_name c = col_name c' -> c = c'.
Proof.
  induction cs as [| a cs IH]; intros Hnd Hc Hc' Heq; [destruct Hc |].
  simpl in Hnd. apply NoDup_cons_iff in Hnd. destruct Hnd as [Ha Hnd].
  destruct Hc as [-> | Hc], Hc' as [-> | Hc'].
  - reflexivity.
  - exfalso. apply Ha. rewrite Heq. apply in_map. exact Hc'.
  - exfalso. apply Ha. rewrite <- Heq. apply in_map. exact Hc.
  - apply IH; assumption.
Qed.

Section Step.

Variable cs : list Series.
Hypothesis Hnd : NoDup (map col_name cs).
Variable idx : list nat.

(** The column [f c] stands for [c] while the loop runs. *)
Variable f : Series -> Series.
Hypothesis Hname : forall c, col_name (f c) = col_name c.

Lemma find_own (c : Series) :
  In c cs -> find (has_name (col_name c)) (map f cs) = Some (f c).
Proof.
  clear idx. revert Hnd.
  induction cs as [| a l IH]; intros Hnd' Hin; [destruct Hin |].
  simpl in Hnd'. apply NoDup_cons_iff in Hnd'. destruct Hnd' as [Ha Hnd'].
  simpl. unfold has_name at 1. rewrite Hname.
  destruct Hin as [-> | Hin].
  - rewrite String.eqb_refl. reflexivity.
  - destruct (String.eqb_spec (col_name a) (col_name c)) as [He | He].
    + exfalso. apply Ha. rewrite He. apply in_map. exact Hin.
    + apply IH; assumption.
Qed.

(** One turn of the loop of lines 82 and 83. *)
Lemma stringify_step (c0 : Series) :
  In c0 cs ->
  stringify (col_name c0) {| index := idx; columns := map f cs |}
  = {| index := idx;
       columns :=
         map (fun c => if has_name (col_name c0) c then astype_str (f c)
                       else f c) cs |}.
Proof.
  intros Hin. unfold stringify. cbn [columns].
  rewrite (find_own c0 Hin). unfold setitem. cbn [columns index].
  assert (Hex : existsb (has_name (col_name c0)) (map f cs) = true).
  { apply existsb_exists. exists (f c0). split; [apply in_map, Hin |].
    unfold has_name. rewrite Hname. apply String.eqb_refl. }
  rewrite Hex. f_equal. rewrite map_map. apply map_ext_in.
  intros c Hc. unfold has_name. rewrite Hname.
  destruct (String.eqb_spec (col_name c) (col_name c0)) as [He | He];
    [| reflexivity].
  assert (c = c0) by (apply (same_label_same_column cs); assumption).
  subst c. unfold astype_str. rewrite Hname. reflexivity.
Qed.

End Step.

(** The loop over the labels [ks], each the label of a column. *)
Lemma stringify_loop (cs : list Series) (idx : list nat) :
  NoDup (map col_name cs) ->
  forall (ks : list string) (f : Series -> Series),
    (forall c, col_name (f c) = col_name c) ->
    (forall k, In k ks -> In k (map col_name cs)) ->
    fold_left (fun df col => stringify col df) ks
              {| index := idx; columns := map f cs |}
    = {| index := idx;
         columns :=
           map (fun c => if existsb (fun k => has_name k c) ks
                         then astype_str (f c) else f c) cs |}.
Proof.
  intros Hnd ks. induction ks as [| k ks IH]; intros f Hname Hks.
  - reflexivity.
  - cbn [fold_left].
    destruct (proj1 (in_map_iff col_name cs k) (Hks k (or_introl eq_refl)))
      as [c0 [<- Hc0]].
    rewrite (stringify_step cs Hnd idx f Hname c0 Hc0).
    rewrite IH.
    + f_equal. apply map_ext. intros c. cbn [existsb].
      destruct (has_name (col_name c0) c); cbn [orb].
      * destruct (existsb _ ks);
          [apply astype_str_idempotent | reflexivity].
      * reflexivity.
    + intros c. destruct (has_name (col_name c0) c); [| apply Hname].
      cbn [astype_str col_name]. apply Hname.
    + intros k Hk. apply Hks. right. exact Hk.
Qed.

Lemma convert_dtypes_names (df : DataFrame) :
  column_names (convert_dtypes df) = column_names df.
Proof.
  unfold column_names, convert_dtypes; simpl. rewrite map_map. reflexivity.
Qed.

(** The loop turns exactly the [object] columns into columns of strings. *)
Lemma normalize_columns (df : DataFrame) :
  unique_labels df ->
  normalize df
  = {| index := index df;
       columns := map stringify_series (columns (convert_dtypes df)) |}.
Proof.
  intros Hu. unfold normalize.
  set (cv := convert_dtypes df).
  assert (Hnd : NoDup (map col_name (columns cv))).
  { fold (column_names cv). unfold cv. rewrite convert_dtypes_names.
    exact Hu. }
  assert (Hcv : cv = {| index := index df;
                        columns := map (fun c => c) (columns cv) |}).
  { rewrite map_id. reflexivity. }
  rewrite Hcv at 2.
  rewrite (stringify_loop (columns cv) (index df) Hnd).
  - f_equal. apply map_ext_in. intros c Hc. unfold stringify_series.
    destruct (is_object (col_dtype c)) eqn:Hobj.
    + assert (Hex : existsb (fun k => has_name k c) (object_columns cv) = true).
      { apply existsb_exists. exists (col_name c). split.
        - unfold object_columns, column_names, select_dtypes; simpl.
          apply in_map. apply filter_In. split; assumption.
        - unfold has_name. apply String.eqb_refl. }
      rewrite Hex. reflexivity.
    + assert (Hex : existsb (fun k => has_name k c) (object_columns cv) = false).
      { apply not_true_is_false. intros Hex.
        apply existsb_exists in Hex. destruct Hex as [k [Hk Hkc]].
        unfold object_columns, column_names, select_dtypes in Hk; simpl in Hk.
        apply in_map_iff in Hk. destruct Hk as [c' [<- Hc']].
        apply filter_In in Hc'. destruct Hc' as [Hc' Hobj'].
        unfold has_name in Hkc. apply String.eqb_eq in Hkc.
        assert (c = c')
          by (apply (same_label_same_column (columns cv)); assumption).
        subst c'. congruence. }
      rewrite Hex. reflexivity.
  - reflexivity.
  - intros k Hk.
    unfold object_columns, column_names, select_dtypes in Hk; simpl in Hk.
    apply in_map_iff in Hk. destruct Hk as [c' [<- Hc']].
    apply filter_In in Hc'. apply in_map. apply Hc'.
Qed.

Lemma normalize_names (df : DataFrame) :
  unique_labels df -> column_names (normalize df) = column_names df.
Proof.
  intros Hu. rewrite (normalize_columns df Hu).
  unfold column_names, convert_dtypes; cbn [columns].
  rewrite !map_map. apply map_ext. intros c.
  unfold stringify_series.
  destruct (is_object (col_dtype (convert_series c))); reflexivity.
Qed.

(** *** The columns an assignment leaves alone *)

Lemma setitem_other (k : string) (s : Series) (df : DataFrame) (i : nat)
  (c : Series) :
  nth_error (columns df) i = Some c -> col_name c <> k ->
  nth_error (columns (setitem k s df)) i = Some c.
Proof.
  intros Hi Hk. unfold setitem; simpl.
  destruct (existsb (has_name k) (columns df)).
  - rewrite nth_error_map, Hi. simpl. unfold has_name.
    apply String.eqb_neq in Hk. rewrite Hk. reflexivity.
  - rewrite nth_error_app1; [exact Hi |].
    apply nth_error_Some. congruence.
Qed.

Lemma setitem_columns_other (cols : list string) (df2 df : DataFrame)
  (i : nat) (c : Series) :
  nth_error (columns df) i = Some c -> ~ In (col_name c) cols ->
  nth_error (columns (setitem_columns cols df2 df)) i = Some c.
Proof.
  unfold setitem_columns. intros Hi Hk.
  assert (Hks : forall ks, In ks (combine cols (columns df2)) ->
                           col_name c <> fst ks).
  { intros [k s] Hin Heq. apply Hk. simpl in Heq. subst k.
    eapply in_combine_l; eauto. }
  clear Hk. revert df Hi.
  induction (combine cols (columns df2)) as [| ks kss IH]; intros df Hi.
  - exact Hi.
  - cbn [fold_left]. apply IH.
    + intros x Hx. apply Hks. right. exact Hx.
    + apply setitem_other; [exact Hi | apply Hks; left; reflexivity].
Qed.

(** Filling changes no column that is not numeric. *)
Lemma fill_missing_values_other (df df2 : DataFrame) (i : nat) (c : Series) :
  unique_labels df ->
  fill_missing_values df = ret df2 ->
  nth_error (columns df) i = Some c ->
  is_number (col_dtype c) = false ->
  nth_error (columns df2) i = Some c.
Proof.
  intros Hu Hfill Hi Hnum. unfold fill_missing_values in Hfill.
  destruct (getitem _ df) as [e | sub]; [discriminate |].
  cbn [bind] in Hfill.
  destruct (fillna (mean sub) sub) as [e | filled]; [discriminate |].
  cbn [bind] in Hfill. injection Hfill as <-.
  apply setitem_columns_other; [exact Hi |].
  intros Hin. unfold column_names, select_dtypes in Hin; simpl in Hin.
  apply in_map_iff in Hin. destruct Hin as [c' [Heq Hc']].
  apply filter_In in Hc'. destruct Hc' as [Hc' Hnum'].
  assert (c' = c).
  { apply (same_label_same_column (columns df)); try assumption.
    eapply nth_error_In; eauto. }
  subst c'. congruence.
Qed.

(** C10, as the code has it.  For a loaded frame with distinct column
    labels: the coercion rewrites the columns that are still [object]
    columns after type inference and no other; such a column then holds
    strings only, the [str()] of each cell, so a missing cell of it has
    become the text [nan]; a column of another type, a text column with its
    missing cells included, is kept as type inference left it; and filling
    missing values changes no column that is not numeric. *)
Theorem normalize_object_columns (df : DataFrame) (Hlabels : unique_labels df) :
  normalize df
  = {| index := index df;
       columns := map stringify_series (columns (convert_dtypes df)) |}
  /\ (forall c, In c (columns (convert_dtypes df)) ->
        col_dtype c = object ->
        In (astype_str c) (columns (normalize df))
        /\ col_values (astype_str c)
           = map (fun v => VStr (py_str v)) (col_values c))
  /\ py_str NaN = "nan"
  /\ (forall c, In c (columns (normalize df)) ->
        col_dtype c = object ->
        forall v, In v (col_values c) ->
          isna v = false /\ exists s, v = VStr s)
  /\ (forall c, In c (columns (convert_dtypes df)) ->
        col_dtype c <> object -> In c (columns (normalize df)))
  /\ (forall df2 i c,
        fill_missing_values (normalize df) = ret df2 ->
        nth_error (columns (normalize df)) i = Some c ->
        is_number (col_dtype c) = false ->
        nth_error (columns df2) i = Some c).
Proof.
  pose proof (normalize_columns df Hlabels) as Hn.
  split; [exact Hn |].
  split.
  { intros c Hc Hobj. split; [| reflexivity].
    rewrite Hn. cbn [columns].
    apply in_map_iff. exists c. split; [| exact Hc].
    unfold stringify_series. rewrite Hobj. reflexivity. }
  split; [reflexivity |].
  split.
  { intros c Hc Hobj v Hv. rewrite Hn in Hc. cbn [columns] in Hc.
    apply in_map_iff in Hc. destruct Hc as [c0 [<- Hc0]].
    unfold stringify_series in *.
    destruct (is_object (col_dtype c0)) eqn:Hobj0.
    - cbn [astype_str col_values] in Hv.
      apply in_map_iff in Hv. destruct Hv as [v0 [<- _]].
      split; [reflexivity | eexists; reflexivity].
    - rewrite Hobj in Hobj0. discriminate. }
  split.
  { intros c Hc Hobj. rewrite Hn. cbn [columns].
    apply in_map_iff. exists c. split; [| exact Hc].
    unfold stringify_series.
    destruct (col_dtype c); try reflexivity. congruence. }
  intros df2 i c Hfill Hi Hnum.
  apply (fill_missing_values_other (normalize df) df2 i c); try assumption.
  unfold unique_labels. rewrite normalize_names by exact Hlabels.
  exact Hlabels.
Qed.

Lemma normalize_object_columns_witness :
  unique_labels mixed_sheet
  /\ normalize mixed_sheet
     = {| index := index mixed_sheet;
          columns :=
            map stringify_series (columns (convert_dtypes mixed_sheet)) |}.
Proof.
  assert (Hlabels : unique_labels mixed_sheet).
  { unfold unique_labels, column_names; simpl.
    repeat constructor; simpl; intuition discriminate. }
  split; [exact Hlabels |].
  exact (proj1 (normalize_object_columns mixed_sheet Hlabels)).
Defined.

(** After the load, a text column still has its missing cell: the column [a]
    of the text [a,b / x,1 / ,2] is a nullable string column whose second
    cell is missing, and it is exported as an empty field.  And a missing
    cell of a column that stays [object] becomes the text [nan], not
    [<NA>]. *)
Lemma text_column_keeps_missing_cell :
  load text_engine (upload "gap.csv" gap_csv)
  = ret {| index := [0; 1]%nat;
           columns :=
             [ {| col_name := "a"; col_dtype := string_;
                  col_values := [VStr "x"; NA] |};
               {| col_name := "b"; col_dtype := Int64;
                  col_values := [VInt 1; VInt 2] |} ] |}
  /\ isna NA = true
  /\ normalize mixed_sheet
     = {| index := [0; 1; 2]%nat;
          columns :=
            [ {| col_name := "m"; col_dtype := object;
                 col_values := [VStr "1"; VStr "x"; VStr "nan"] |} ] |}
  /\ VStr "nan" <> VStr "<NA>".
Proof. repeat split. discriminate. Qed.

End Coercion.

(** ** File names: [splitext], [lower], [replace] *)

Module Paths.
Import Pandas App Spec Text.

Lemma append_empty_r (s : string) : s ++ "" = s.
Proof. induction s as [| c s IH]; simpl; congruence. Qed.

Lemma append_assoc (a b c : string) : (a ++ b) ++ c = a ++ (b ++ c).
Proof. induction a as [| x a IH]; simpl; congruence. Qed.

Lemma length_append (a b : string) :
  String.length (a ++ b) = (String.length a + String.length b)%nat.
Proof. induction a as [| x a IH]; simpl; congruence. Qed.

Lemma substring_whole (s : string) : substring 0 (String.length s) s = s.
Proof. induction s as [| c s IH]; simpl; congruence. Qed.

(** A text cut at any index is the two pieces put together. *)
Lemma substring_cut (s : string) :
  forall n, substring 0 n s ++ substring n (String.length s - n) s = s.
Proof.
  induction s as [| c s IH]; intros [| n]; simpl; try reflexivity.
  - f_equal. apply substring_whole.
  - f_equal. apply IH.
Qed.

Lemma substring_skip (a t : string) (m : nat) :
  substring (String.length a) m (a ++ t) = substring 0 m t.
Proof. induction a as [| x a IH]; simpl; [reflexivity | exact IH]. Qed.

Lemma substring_take (a t : string) :
  substring 0 (String.length a) (a ++ t) = a.
Proof.
  induction a as [| x a IH]; simpl.
  - destruct t; reflexivity.
  - f_equal. exact IH.
Qed.

(** *** [rfind] *)

Lemma absent_cons (c x : ascii) (s : string) :
  absent c (String x s) <-> x <> c /\ absent c s.
Proof. unfold absent. simpl. intuition. Qed.

Lemma absent_append (c : ascii) (a b : string) :
  absent c (a ++ b) <-> absent c a /\ absent c b.
Proof.
  induction a as [| x a IH].
  - unfold absent. simpl. intuition.
  - change (String x a ++ b) with (String x (a ++ b)).
    rewrite !absent_cons, IH. intuition.
Qed.

Lemma rfind_from_absent (c : ascii) (s : string) :
  forall i acc, absent c s -> Py.rfind_from c s i acc = acc.
Proof.
  induction s as [| x s IH]; intros i acc H; simpl; [reflexivity |].
  apply absent_cons in H. destruct H as [Hx Hs].
  rewrite IH by exact Hs.
  destruct (Ascii.eqb_spec x c); [contradiction | reflexivity].
Qed.

Lemma rfind_from_append (c : ascii) (a b : string) :
  forall i acc,
    Py.rfind_from c (a ++ b) i acc
    = Py.rfind_from c b (i + Z.of_nat (String.length a))
                    (Py.rfind_from c a i acc).
Proof.
  induction a as [| x a IH]; intros i acc; simpl String.length.
  - simpl. f_equal. lia.
  - cbn [append Py.rfind_from]. rewrite IH. f_equal. lia.
Qed.

(** The result of [rfind]: the accumulator when the character is absent,
    and otherwise the index of its last occurrence. *)
Lemma rfind_from_spec (c : ascii) (s : string) :
  forall i acc,
    (absent c s /\ Py.rfind_from c s i acc = acc)
    \/ (exists a b, s = a ++ String c b /\ absent c b
                    /\ Py.rfind_from c s i acc
                       = (i + Z.of_nat (String.length a))%Z).
Proof.
  induction s as [| x s IH]; intros i acc.
  - left. split; [intros [] | reflexivity].
  - cbn [Py.rfind_from].
    destruct (IH (i + 1)%Z (if Ascii.eqb x c then i else acc))
      as [[Habs Hr] | [a [b [Hs [Hb Hr]]]]].
    + destruct (Ascii.eqb_spec x c) as [-> | Hx].
      * right. exists "", s. repeat split; [exact Habs |].
        rewrite Hr. simpl. lia.
      * left. split; [apply absent_cons; split; assumption | exact Hr].
    + right. exists (String x a), b. subst s. repeat split; [exact Hb |].
      rewrite Hr. simpl String.length. lia.
Qed.

Lemma rfind_spec (c : ascii) (s : string) :
  (absent c s /\ Py.rfind c s = (-1)%Z)
  \/ (exists a b, s = a ++ String c b /\ absent c b
                  /\ Py.rfind c s = Z.of_nat (String.length a)).
Proof.
  unfold Py.rfind.
  destruct (rfind_from_spec c s 0 (-1)) as [H | [a [b [H1 [H2 H3]]]]];
    [left; exact H | right].
  exists a, b. split; [exact H1 | split; [exact H2 | rewrite H3; lia]].
Qed.

(** *** [splitext] *)

Lemma splitext_loop_join (n : nat) (p : string) :
  forall i d,
    fst (Py.splitext_loop n p i d) ++ snd (Py.splitext_loop n p i d) = p.
Proof.
  induction n as [| n IH]; intros i d; cbn [Py.splitext_loop].
  - apply append_empty_r.
  - destruct (negb _); [| apply IH].
    cbn [fst snd]. unfold Py.slice_to, Py.slice_from. apply substring_cut.
Qed.

(** X1: the two components of [splitext] put together are the name. *)
Theorem splitext_join (p : string) :
  fst (Py.splitext p) ++ snd (Py.splitext p) = p
  /\ stem p ++ snd (Py.splitext p) = p.
Proof.
  assert (H : fst (Py.splitext p) ++ snd (Py.splitext p) = p).
  { unfold Py.splitext. destruct (_ <? _)%Z.
    - apply splitext_loop_join.
    - apply append_empty_r. }
  split; exact H.
Qed.

Lemma splitext_loop_cases (n : nat) (p : string) (i d : Z) :
  Py.splitext_loop n p i d = (p, "")
  \/ Py.splitext_loop n p i d = (Py.slice_to d p, Py.slice_from d p).
Proof.
  revert i. induction n as [| n IH]; intros i; cbn [Py.splitext_loop].
  - left. reflexivity.
  - destruct (negb _); [right; reflexivity | apply IH].
Qed.

Lemma append_same_length (a a' t t' : string) :
  a ++ t = a' ++ t' -> String.length a = String.length a' ->
  a = a' /\ t = t'.
Proof.
  revert a'. induction a as [| x a IH]; intros [| x' a'] H Hl;
    simpl in *; try discriminate; [split; auto |].
  injection H as -> H. injection Hl as Hl.
  destruct (IH a' H Hl) as [-> ->]. split; reflexivity.
Qed.

(** When the same text is cut at two places, the later tail is a tail of the
    earlier one. *)
Lemma append_later_tail (a' a t t' : string) :
  a' ++ t' = a ++ t -> (String.length a' <= String.length a)%nat ->
  exists m, t' = m ++ t.
Proof.
  revert a. induction a' as [| x a' IH]; intros a H Hl.
  - exists a. exact H.
  - destruct a as [| y a]; simpl in *; [lia |].
    injection H as -> H. apply (IH a H). lia.
Qed.

(** X2: the extension [splitext] returns is empty, or a dot followed by
    characters none of which is a dot or a slash. *)
Theorem splitext_extension_shape (p : string) :
  snd (Py.splitext p) = ""
  \/ exists e, snd (Py.splitext p) = String "."%char e
               /\ absent "."%char e /\ absent "/"%char e.
Proof.
  unfold Py.splitext.
  destruct (Z.ltb_spec (Py.rfind "/"%char p) (Py.rfind "."%char p))
    as [Hlt | Hge]; [| left; reflexivity].
  destruct (splitext_loop_cases
              (Z.to_nat (Py.rfind "."%char p - (Py.rfind "/"%char p + 1)))
              p (Py.rfind "/"%char p + 1) (Py.rfind "."%char p))
    as [-> | ->]; [left; reflexivity | right].
  cbn [snd].
  destruct (rfind_spec "."%char p) as [[_ Hd] | [a [b [Hp [Hb Hd]]]]].
  { destruct (rfind_spec "/"%char p) as [[_ Hs] | [a' [b' [_ [_ Hs]]]]]; lia. }
  exists b. rewrite Hd. unfold Py.slice_from. rewrite Nat2Z.id.
  split; [| split; [exact Hb |]].
  - rewrite Hp at 2. rewrite substring_skip.
    rewrite Hp, length_append.
    replace (String.length a + String.length (String "."%char b)
             - String.length a)%nat
      with (String.length (String "."%char b)) by lia.
    apply substring_whole.
  - destruct (rfind_spec "/"%char p) as [[Habs _] | [a' [b' [Hp' [Hb' Hs]]]]].
    + rewrite Hp in Habs. apply absent_append in Habs.
      destruct Habs as [_ Habs]. apply absent_cons in Habs. apply Habs.
    + assert (Hl : (String.length (a' ++ "/") <= String.length a)%nat).
      { rewrite length_append. simpl. lia. }
      assert (Heq : (a' ++ "/") ++ b' = a ++ String "."%char b).
      { rewrite append_assoc. simpl. congruence. }
      destruct (append_later_tail _ _ _ _ Heq Hl) as [m Hm].
      rewrite Hm in Hb'. apply absent_append in Hb'.
      destruct Hb' as [_ Hb']. apply absent_cons in Hb'. apply Hb'.
Qed.

End Paths.

(** ** The extension and the download's name *)

Module Names.
Import Pandas App Spec Text Paths.

(** *** Lower-casing *)

Lemma lower_ascii_idempotent (c : ascii) :
  Py.lower_ascii (Py.lower_ascii c) = Py.lower_ascii c.
Proof. destruct c as [[] [] [] [] [] [] [] []]; reflexivity. Qed.

Lemma lower_ascii_dot (c : ascii) :
  Ascii.eqb (Py.lower_ascii c) "."%char = Ascii.eqb c "."%char.
Proof. destruct c as [[] [] [] [] [] [] [] []]; reflexivity. Qed.

Lemma lower_ascii_slash (c : ascii) :
  Ascii.eqb (Py.lower_ascii c) "/"%char = Ascii.eqb c "/"%char.
Proof. destruct c as [[] [] [] [] [] [] [] []]; reflexivity. Qed.

Lemma lower_idempotent (s : string) : Py.lower (Py.lower s) = Py.lower s.
Proof.
  induction s as [| c s IH]; simpl; [reflexivity |].
  rewrite lower_ascii_idempotent, IH. reflexivity.
Qed.

Lemma lower_length (s : string) :
  String.length (Py.lower s) = String.length s.
Proof. induction s as [| c s IH]; simpl; congruence. Qed.

Lemma lower_substring (s : string) :
  forall n m, substring n m (Py.lower s) = Py.lower (substring n m s).
Proof.
  induction s as [| c s IH]; intros [| n] [| m]; simpl; try reflexivity.
  - f_equal. apply IH.
  - apply IH.
  - apply IH.
Qed.

Lemma lower_rfind_from (c : ascii) (s : string) :
  (forall x, Ascii.eqb (Py.lower_ascii x) c = Ascii.eqb x c) ->
  forall i acc,
    Py.rfind_from c (Py.lower s) i acc = Py.rfind_from c s i acc.
Proof.
  intros Hc. induction s as [| x s IH]; intros i acc; simpl;
    [reflexivity |].
  rewrite Hc. apply IH.
Qed.

Lemma lower_is_dot (s : string) : (Py.lower s =? ".") = (s =? ".").
Proof.
  destruct s as [| c [| c' s]]; simpl; try reflexivity.
  - rewrite lower_ascii_dot. reflexivity.
  - rewrite lower_ascii_dot. reflexivity.
Qed.

Lemma lower_splitext_loop (n : nat) (p : string) :
  forall i d,
    Py.splitext_loop n (Py.lower p) i d
    = (Py.lower (fst (Py.splitext_loop n p i d)),
       Py.lower (snd (Py.splitext_loop n p i d))).
Proof.
  induction n as [| n IH]; intros i d; cbn [Py.splitext_loop].
  - reflexivity.
  - unfold Py.slice_at at 1. rewrite lower_substring, lower_is_dot.
    fold (Py.slice_at i p). destruct (negb _); [| apply IH].
    unfold Py.slice_to, Py.slice_from. cbn [fst snd].
    rewrite !lower_substring, lower_length. reflexivity.
Qed.

(** [splitext] and [lower] commute. *)
Lemma lower_splitext (p : string) :
  Py.splitext (Py.lower p)
  = (Py.lower (fst (Py.splitext p)), Py.lower (snd (Py.splitext p))).
Proof.
  unfold Py.splitext, Py.rfind.
  rewrite (lower_rfind_from "/"%char p lower_ascii_slash).
  rewrite (lower_rfind_from "."%char p lower_ascii_dot).
  destruct (_ <? _)%Z; [apply lower_splitext_loop | reflexivity].
Qed.

(** X3: for names of ASCII characters, the dispatch of the load ignores the
    case of the whole name.  Two such names that are equal after lower-casing
    have the same [file_extension], and two uploads with such names and the
    same content load alike; the extension is its own lower case. *)
Theorem file_extension_ignores_case (n1 n2 : string)
  (Hascii1 : is_ascii n1 = true) (Hascii2 : is_ascii n2 = true)
  (Hcase : Py.lower n1 = Py.lower n2) :
  file_extension n1 = file_extension n2
  /\ Py.lower (file_extension n1) = file_extension n1
  /\ forall (E : Engine) (s1 s2 : nat) (content : string),
       load E {| name := n1; size := s1; content := content |}
       = load E {| name := n2; size := s2; content := content |}.
Proof.
  assert (Hext : forall n, file_extension n = snd (Py.splitext (Py.lower n))).
  { intros n. unfold file_extension. rewrite lower_splitext. reflexivity. }
  assert (H : file_extension n1 = file_extension n2)
    by (rewrite !Hext, Hcase; reflexivity).
  split; [exact H |].
  split; [apply lower_idempotent |].
  intros E s1 s2 content. unfold load. cbn [name App.content].
  rewrite H. reflexivity.
Qed.

Lemma file_extension_ignores_case_witness :
  is_ascii "Report.CSV" = true
  /\ is_ascii "REPORT.csv" = true
  /\ Py.lower "Report.CSV" = Py.lower "REPORT.csv"
  /\ file_extension "Report.CSV" = file_extension "REPORT.csv".
Proof.
  assert (Ha1 : is_ascii "Report.CSV" = true) by reflexivity.
  assert (Ha2 : is_ascii "REPORT.csv" = true) by reflexivity.
  assert (Hcase : Py.lower "Report.CSV" = Py.lower "REPORT.csv")
    by reflexivity.
  split; [exact Ha1 |]. split; [exact Ha2 |]. split; [exact Hcase |].
  exact (proj1 (file_extension_ignores_case _ _ Ha1 Ha2 Hcase)).
Defined.

(** *** [replace] *)

Lemma contains_empty (s : string) : Py.contains "" s = true.
Proof. destruct s; reflexivity. Qed.

Lemma replace_from_absent (old new s : string) :
  Py.contains old s = false -> Py.replace_from old new 0 s = s.
Proof.
  induction s as [| c s IH]; intros H; [reflexivity |].
  cbn [Py.contains] in H. apply orb_false_iff in H. destruct H as [Hp Hs].
  cbn [Py.replace_from]. rewrite Hp, IH by exact Hs. reflexivity.
Qed.

(** X5: for a name whose extension is made of ASCII characters, when the
    lower-cased extension does not occur in the name, as for an extension
    written in upper case, the download keeps the upload's name, whatever the
    target format. *)
Theorem file_name_unchanged (n : string) (conversion_type : ConversionType)
  (Hascii : is_ascii (snd (Py.splitext n)) = true)
  (Hnone : Py.contains (file_extension n) n = false) :
  file_name n conversion_type = n.
Proof.
  unfold file_name, Py.replace.
  destruct (String.eqb_spec (file_extension n) "") as [He | He].
  - rewrite He, contains_empty in Hnone. discriminate.
  - apply replace_from_absent. exact Hnone.
Qed.

Lemma file_name_unchanged_witness :
  is_ascii (snd (Py.splitext "DATA.CSV")) = true
  /\ Py.contains (file_extension "DATA.CSV") "DATA.CSV" = false
  /\ file_name "DATA.CSV" Excel = "DATA.CSV".
Proof.
  assert (Hascii : is_ascii (snd (Py.splitext "DATA.CSV")) = true)
    by reflexivity.
  assert (Hnone : Py.contains (file_extension "DATA.CSV") "DATA.CSV" = false)
    by reflexivity.
  split; [exact Hascii |].
  split; [exact Hnone | exact (file_name_unchanged _ Excel Hascii Hnone)].
Defined.

(** X6: a name without a dot has no extension, and the empty text is
    replaced before every character and at the end: the new extension is put
    before each character of the name (not inside a character of several
    bytes) and after the last. *)
Theorem file_name_without_dot (n : string)
  (conversion_type : ConversionType) (Hdot : absent "."%char n) :
  Py.splitext n = (n, "")
  /\ file_name n conversion_type
     = Py.intersperse ("." ++ Py.lower (label conversion_type)) n.
Proof.
  assert (Hs : Py.splitext n = (n, "")).
  { unfold Py.splitext.
    destruct (rfind_spec "."%char n) as [[_ Hd] | [a [b [Hn _]]]].
    - rewrite Hd.
      destruct (Z.ltb_spec (Py.rfind "/"%char n) (-1)) as [Hlt |];
        [| reflexivity].
      destruct (rfind_spec "/"%char n) as [[_ Hr] | [a [b [_ [_ Hr]]]]]; lia.
    - exfalso. rewrite Hn in Hdot. apply absent_append in Hdot.
      destruct Hdot as [_ Hdot]. apply absent_cons in Hdot.
      destruct Hdot as [Hdot _]. congruence. }
  split; [exact Hs |].
  unfold file_name, file_extension. rewrite Hs. reflexivity.
Qed.

Lemma file_name_without_dot_witness :
  absent "."%char "noext"
  /\ file_name "noext" CSV = ".csvn.csvo.csve.csvx.csvt.csv".
Proof.
  assert (Hdot : absent "."%char "noext").
  { unfold absent. simpl. intuition discriminate. }
  split; [exact Hdot |].
  exact (proj2 (file_name_without_dot "noext" CSV Hdot)).
Defined.

Lemma file_name_without_dot_two_bytes : file_name "é" CSV = ".csvé.csv".
Proof. reflexivity. Qed.

(** *** Names of the form [stem.ext] *)

Lemma prefix_other_head (c x : ascii) (old s : string) :
  x <> c -> prefix (String c old) (String x s) = false.
Proof.
  intros H. simpl. destruct (ascii_dec c x); [congruence | reflexivity].
Qed.

Lemma prefix_self (s : string) : prefix s s = true.
Proof.
  induction s as [| c s IH]; simpl; [reflexivity |].
  destruct (ascii_dec c c); [exact IH | congruence].
Qed.

Lemma replace_from_skip (old new s : string) :
  Py.replace_from old new (String.length s) s = "".
Proof. induction s as [| c s IH]; simpl; [reflexivity | exact IH]. Qed.

(** Replacing [old] in [stem ++ old], when the first character of [old] is
    not in [stem]. *)
Lemma replace_at_end (c : ascii) (e new stem : string) :
  absent c stem ->
  Py.replace_from (String c e) new 0 (stem ++ String c e) = stem ++ new.
Proof.
  intros Habs. induction stem as [| x stem IH].
  - cbn [append Py.replace_from]. rewrite prefix_self.
    replace (String.length (String c e) - 1)%nat with (String.length e)
      by (simpl; lia).
    rewrite replace_from_skip.
    rewrite append_empty_r. reflexivity.
  - apply absent_cons in Habs. destruct Habs as [Hx Habs].
    change (String x stem ++ String c e)
      with (String x (stem ++ String c e)).
    cbn [Py.replace_from]. rewrite prefix_other_head by exact Hx.
    rewrite IH by exact Habs. reflexivity.
Qed.

Lemma splitext_plain (stem e : string) :
  stem <> "" ->
  absent "."%char stem -> absent "/"%char stem ->
  absent "."%char e -> absent "/"%char e ->
  Py.splitext (stem ++ String "."%char e) = (stem, String "."%char e).
Proof.
  intros Hne Hds Hss Hde Hse. unfold Py.splitext, Py.rfind.
  assert (Hsep : Py.rfind_from "/"%char (stem ++ String "."%char e) 0 (-1)
                 = (-1)%Z).
  { apply rfind_from_absent. apply absent_append. split; [exact Hss |].
    apply absent_cons. split; [discriminate | exact Hse]. }
  assert (Hdot : Py.rfind_from "."%char (stem ++ String "."%char e) 0 (-1)
                 = Z.of_nat (String.length stem)).
  { rewrite rfind_from_append, (rfind_from_absent _ stem) by exact Hds.
    cbn [Py.rfind_from]. rewrite Ascii.eqb_refl.
    rewrite rfind_from_absent by exact Hde. lia. }
  rewrite Hsep, Hdot.
  destruct stem as [| x stem]; [congruence |].
  apply absent_cons in Hds. destruct Hds as [Hx _].
  replace (-1 <? Z.of_nat (String.length (String x stem)))%Z with true
    by (symmetry; apply Z.ltb_lt; lia).
  replace (Z.to_nat (Z.of_nat (String.length (String x stem)) - (-1 + 1)))
    with (S (String.length stem)) by (simpl String.length; lia).
  cbn [Py.splitext_loop].
  replace (negb (Py.slice_at (-1 + 1) (String x stem ++ String "."%char e)
                 =? "."))
    with true.
  - unfold Py.slice_to, Py.slice_from. rewrite Nat2Z.id.
    rewrite substring_take, substring_skip, length_append.
    replace (String.length (String x stem)
             + String.length (String "."%char e)
             - String.length (String x stem))%nat
      with (String.length (String "."%char e)) by lia.
    rewrite substring_whole. reflexivity.
  - symmetry. apply negb_true_iff. unfold Py.slice_at. simpl.
    destruct (Ascii.eqb_spec x "."%char); [contradiction | reflexivity].
Qed.

(** X4: for a name [stem.ext] whose stem is not empty and holds no dot and
    no slash, and whose extension is made of ASCII characters, in lower case,
    without a further dot or slash, the download is named by the stem
    followed by a dot and the lower-cased label of the target: [stem.csv] for
    CSV, [stem.excel] for Excel. *)
Theorem file_name_of_plain_name (stem0 e : string)
  (conversion_type : ConversionType)
  (Hstem : stem0 <> "")
  (Hds : absent "."%char stem0) (Hss : absent "/"%char stem0)
  (Hde : absent "."%char e) (Hse : absent "/"%char e)
  (Hascii : is_ascii e = true)
  (Hlow : Py.lower e = e) :
  stem (stem0 ++ String "."%char e) = stem0
  /\ file_extension (stem0 ++ String "."%char e) = String "."%char e
  /\ file_name (stem0 ++ String "."%char e) conversion_type
     = stem0 ++ "." ++ Py.lower (label conversion_type)
  /\ file_name (stem0 ++ String "."%char e) CSV = stem0 ++ ".csv"
  /\ file_name (stem0 ++ String "."%char e) Excel = stem0 ++ ".excel".
Proof.
  pose proof (splitext_plain stem0 e Hstem Hds Hss Hde Hse) as Hs.
  assert (Hext : file_extension (stem0 ++ String "."%char e)
                 = String "."%char e).
  { unfold file_extension. rewrite Hs. cbn [snd Py.lower].
    rewrite Hlow. reflexivity. }
  assert (Hname : forall ct,
             file_name (stem0 ++ String "."%char e) ct
             = stem0 ++ "." ++ Py.lower (label ct)).
  { intros ct. unfold file_name. rewrite Hext. unfold Py.replace.
    cbn [String.eqb]. apply replace_at_end. exact Hds. }
  split; [unfold stem; rewrite Hs; reflexivity |].
  split; [exact Hext |].
  split; [apply Hname |].
  split; apply Hname.
Qed.

Lemma file_name_of_plain_name_witness :
  file_name ("sales" ++ String "."%char "xlsx") CSV = "sales" ++ ".csv".
Proof.
  refine (proj1 (proj2 (proj2 (proj2
    (file_name_of_plain_name "sales" "xlsx" CSV _ _ _ _ _ _ _))))).
  - discriminate.
  - unfold absent. simpl. intuition discriminate.
  - unfold absent. simpl. intuition discriminate.
  - unfold absent. simpl. intuition discriminate.
  - unfold absent. simpl. intuition discriminate.
  - reflexivity.
  - reflexivity.
Defined.

End Names.

(** ** Column selection by labels *)

Module Labels.
Import Pandas App Spec.

Lemma filter_has_name_present (k : string) (cs : list Series) :
  In k (map col_name cs) -> filter (has_name k) cs <> [].
Proof.
  intros Hin Hnil. apply in_map_iff in Hin. destruct Hin as [c [Hk Hc]].
  assert (Hf : In c (filter (has_name k) cs)).
  { apply filter_In. split; [exact Hc |].
    unfold has_name. rewrite Hk. apply String.eqb_refl. }
  rewrite Hnil in Hf. destruct Hf.
Qed.

Lemma filter_has_name_empty (k : string) (cs : list Series) :
  filter (has_name k) cs = [] -> ~ In k (map col_name cs).
Proof.
  intros Hnil Hin. exact (filter_has_name_present k cs Hin Hnil).
Qed.

Lemma getitem_columns_returns (cs : list Series) (cols : list string) :
  (exists r, getitem_columns cols cs = ret r)
  <-> incl cols (map col_name cs).
Proof.
  induction cols as [| k cols IH].
  - split; [intros _ x [] | intros _; exists []; reflexivity].
  - cbn [getitem_columns]. split.
    + intros [r Hr] x [<- | Hx].
      * destruct (in_dec string_dec k (map col_name cs)) as [Hin | Hout];
          [exact Hin |].
        rewrite (Selection.filter_has_name_absent k cs Hout) in Hr.
        discriminate.
      * destruct (filter (has_name k) cs); [discriminate |].
        destruct (getitem_columns cols cs) as [e | r0]; [discriminate |].
        apply IH; [exists r0; reflexivity | exact Hx].
    + intros Hincl.
      pose proof (filter_has_name_present k cs
                    (Hincl k (or_introl eq_refl))) as Hne.
      destruct (filter (has_name k) cs) as [| c found]; [congruence |].
      destruct (proj2 IH (fun x Hx => Hincl x (or_intror Hx))) as [r Hr].
      rewrite Hr. eexists. reflexivity.
Qed.

(** X7: [df[cols]] returns exactly when every label of [cols] is a column
    label of the frame; in particular the selection of all of the frame's own
    labels always returns, also with repeated labels. *)
Theorem getitem_returns_iff (cols : list string) (df : DataFrame) :
  ((exists df', getitem cols df = ret df')
   <-> incl cols (column_names df))
  /\ exists df', select_columns untouched df = ret df'.
Proof.
  assert (H : forall l, (exists df', getitem l df = ret df')
                        <-> incl l (column_names df)).
  { intros l. unfold getitem, column_names.
    rewrite <- getitem_columns_returns. split.
    - intros [df' Hdf'].
      destruct (getitem_columns l (columns df)) as [e | r];
        [discriminate | exists r; reflexivity].
    - intros [r Hr]. rewrite Hr. eexists. reflexivity. }
  split; [apply H |].
  apply (H (column_names df)). apply incl_refl.
Qed.

Lemma getitem_columns_projection (cs : list Series) :
  NoDup (map col_name cs) ->
  forall cols, incl cols (map col_name cs) ->
    exists r, getitem_columns cols cs = ret r
              /\ map col_name r = cols /\ incl r cs.
Proof.
  intros Hnd cols. induction cols as [| k cols IH]; intros Hincl.
  - exists []. repeat split. intros x [].
  - destruct (proj1 (in_map_iff col_name cs k) (Hincl k (or_introl eq_refl)))
      as [c [<- Hc]].
    destruct (IH (fun x Hx => Hincl x (or_intror Hx))) as [r [Hr [Hn Hi]]].
    exists (c :: r). cbn [getitem_columns].
    rewrite (Selection.filter_has_name_unique cs c Hnd Hc), Hr.
    split; [reflexivity |]. split; [simpl; congruence |].
    intros x [<- | Hx]; [exact Hc | apply Hi, Hx].
Qed.

(** X9: for a frame with distinct column labels and labels taken among
    them, [df[cols]] is the projection to exactly the ordered list [cols]:
    the result has these labels in this order, each column is the frame's
    column of that label, and the row labels are the frame's (so a frame with
    one cell per row stays one). *)
Theorem getitem_projection (cols : list string) (df : DataFrame)
  (Hlabels : unique_labels df) (Hcols : incl cols (column_names df)) :
  exists df',
    getitem cols df = ret df'
    /\ column_names df' = cols
    /\ index df' = index df
    /\ incl (columns df') (columns df)
    /\ (rectangular df -> rectangular df').
Proof.
  destruct (getitem_columns_projection (columns df) Hlabels cols Hcols)
    as [r [Hr [Hn Hi]]].
  exists {| index := index df; columns := r |}.
  unfold getitem. rewrite Hr.
  split; [reflexivity |]. split; [exact Hn |]. split; [reflexivity |].
  split; [exact Hi |].
  unfold rectangular, nrows. cbn [index columns]. intros Hwf.
  rewrite Forall_forall in *. intros c Hc. apply Hwf, Hi, Hc.
Qed.

Lemma getitem_projection_witness :
  exists df',
    getitem ["b"; "a"] repeated_rows = ret df'
    /\ column_names df' = ["b"; "a"].
Proof.
  assert (Hlabels : unique_labels repeated_rows).
  { unfold unique_labels, column_names; simpl.
    repeat constructor; simpl; intuition discriminate. }
  assert (Hcols : incl ["b"; "a"] (column_names repeated_rows)).
  { intros x [<- | [<- | []]]; simpl; auto. }
  destruct (getitem_projection ["b"; "a"] repeated_rows Hlabels Hcols)
    as [df' [H1 [H2 _]]].
  exists df'. split; assumption.
Defined.

End Labels.

(** ** More on [drop_duplicates] *)

Module Distinct.
Import Pandas App Spec Rows.

Lemma duplicated_distinct (rs : list row) :
  forall seen,
    NoDup rs -> (forall r, In r rs -> ~ In r seen) ->
    duplicated_from seen rs = repeat false (List.length rs).
Proof.
  induction rs as [| r rs IH]; intros seen Hnd Hsep; [reflexivity |].
  apply NoDup_cons_iff in Hnd. destruct Hnd as [Hr Hnd].
  cbn [duplicated_from List.length repeat].
  destruct (in_dec row_eq_dec r seen) as [Hs | Hs].
  - exfalso. exact (Hsep r (or_introl eq_refl) Hs).
  - f_equal. apply IH; [exact Hnd |].
    intros x Hx [<- | Hin]; [contradiction |].
    exact (Hsep x (or_intror Hx) Hin).
Qed.

(** X10: [drop_duplicates] leaves the frame as it is exactly when its rows
    are pairwise distinct. *)
Theorem drop_duplicates_noop_iff (df : DataFrame)
  (Hwf : rectangular df) (Hcols : columns df <> []) :
  drop_duplicates df = df <-> NoDup (rows df).
Proof.
  split.
  - intros Heq.
    rewrite <- Heq, (Duplicates.drop_duplicates_rows df Hwf Hcols).
    apply kept_NoDup.
  - intros Hnd. unfold drop_duplicates.
    destruct (empty df); [reflexivity |].
    unfold duplicated.
    rewrite (duplicated_distinct (rows df) [] Hnd) by (intros r _ []).
    rewrite Duplicates.map_negb_repeat_false, rows_length.
    apply getitem_mask_all, Hwf.
Qed.

Lemma drop_duplicates_noop_iff_witness :
  drop_duplicates repeated_rows = repeated_rows
  <-> NoDup (rows repeated_rows).
Proof.
  apply (drop_duplicates_noop_iff repeated_rows).
  - repeat constructor.
  - discriminate.
Defined.

Lemma mask_filter_le {A : Type} (mask : list bool) (l : list A) :
  (List.length (mask_filter mask l) <= List.length l)%nat.
Proof.
  revert l. induction mask as [| b mask IH]; intros [| a l]; simpl;
    try lia.
  specialize (IH l). destruct b; simpl; lia.
Qed.

(** X11: [drop_duplicates] never adds a row and never drops the first one:
    the row count does not grow, a frame with a row keeps its first row label
    (so it is not emptied), and the columns keep their labels and types. *)
Theorem drop_duplicates_keeps_first_label (df : DataFrame) :
  (nrows (drop_duplicates df) <= nrows df)%nat
  /\ hd_error (index (drop_duplicates df)) = hd_error (index df)
  /\ ((0 < nrows df)%nat -> (0 < nrows (drop_duplicates df))%nat)
  /\ column_names (drop_duplicates df) = column_names df
  /\ map col_dtype (columns (drop_duplicates df))
     = map col_dtype (columns df).
Proof.
  assert (Hhd : hd_error (index (drop_duplicates df)) = hd_error (index df)).
  { unfold drop_duplicates. destruct (empty df) eqn:He; [reflexivity |].
    unfold getitem_mask; cbn [index]. unfold duplicated.
    pose proof (rows_length df) as Hlen. unfold nrows in Hlen.
    destruct (index df) as [| i idx]; [destruct (map negb _); reflexivity |].
    destruct (rows df) as [| r rs]; [discriminate |]. reflexivity. }
  split; [| split; [exact Hhd | split; [| split]]].
  - unfold drop_duplicates. destruct (empty df); [lia |].
    unfold nrows, getitem_mask; cbn [index]. apply mask_filter_le.
  - unfold nrows. intros Hpos.
    destruct (index df); [simpl in Hpos; lia |].
    destruct (index (drop_duplicates df)); [discriminate | simpl; lia].
  - unfold drop_duplicates, column_names.
    destruct (empty df); [reflexivity |].
    unfold getitem_mask; cbn [columns]. rewrite map_map. reflexivity.
  - unfold drop_duplicates. destruct (empty df); [reflexivity |].
    unfold getitem_mask; cbn [columns]. rewrite map_map. reflexivity.
Qed.

End Distinct.

(** ** Filling missing values, column by column *)

Module Filling.
Import Pandas App Spec Columnwise.

Lemma series_fillna_shape (q : Qc) (c c' : Series) :
  series_fillna q c = ret c' ->
  col_name c' = col_name c /\ col_dtype c' = col_dtype c
  /\ List.length (col_values c') = List.length (col_values c).
Proof.
  unfold series_fillna. intros H.
  assert (Hdone : forall s,
             ret s = ret c' ->
             col_name s = col_name c -> col_dtype s = col_dtype c ->
             List.length (col_values s) = List.length (col_values c) ->
             col_name c' = col_name c /\ col_dtype c' = col_dtype c
             /\ List.length (col_values c') = List.length (col_values c)).
  { intros s Hs. unfold ret in Hs. injection Hs as <-. auto. }
  destruct (col_dtype c) eqn:Hd;
    try (apply (Hdone _ H); cbn; rewrite ?length_map; auto; fail).
  destruct (existsb isna (col_values c)).
  - destruct (is_integral q); [| unfold raise, ret in H; discriminate].
    apply (Hdone _ H); cbn; rewrite ?length_map; auto.
  - apply (Hdone _ H); auto.
Qed.

Lemma fill_series_shape (c c' : Series) :
  fill_series c = ret c' ->
  col_name c' = col_name c /\ col_dtype c' = col_dtype c
  /\ List.length (col_values c') = List.length (col_values c).
Proof.
  unfold fill_series. destruct (series_mean (col_values c)) as [q |].
  - apply series_fillna_shape.
  - intros H. unfold ret in H. injection H as <-. repeat split.
Qed.

(** *** The assignment [df[k] = s] in the middle of a frame *)

Lemma replace_absent (k : string) (s : Series) (l : list Series) :
  ~ In k (map col_name l) ->
  map (fun x => if has_name k x then s else x) l = l.
Proof.
  induction l as [| x l IH]; intros H; simpl in *; [reflexivity |].
  unfold has_name at 1.
  destruct (String.eqb_spec (col_name x) k) as [He | He].
  - exfalso. apply H. left. exact He.
  - f_equal. apply IH. intros Hin. apply H. right. exact Hin.
Qed.

Lemma NoDup_middle (pre t : list Series) (c : Series) :
  NoDup (map col_name (pre ++ c :: t)) ->
  ~ In (col_name c) (map col_name pre)
  /\ ~ In (col_name c) (map col_name t).
Proof.
  rewrite map_app. cbn [map]. intros H.
  apply NoDup_remove_2 in H. split; intros Hin; apply H, in_or_app; auto.
Qed.

Lemma find_middle (pre t : list Series) (c : Series) :
  ~ In (col_name c) (map col_name pre) ->
  find (has_name (col_name c)) (pre ++ c :: t) = Some c.
Proof.
  induction pre as [| x pre IH]; intros H; simpl in *.
  - unfold has_name. rewrite String.eqb_refl. reflexivity.
  - unfold has_name at 1.
    destruct (String.eqb_spec (col_name x) (col_name c)) as [He | He].
    + exfalso. apply H. left. exact He.
    + apply IH. intros Hin. apply H. right. exact Hin.
Qed.

Lemma setitem_middle (idx : list nat) (pre t : list Series) (c c' : Series) :
  NoDup (map col_name (pre ++ c :: t)) ->
  col_name c' = col_name c ->
  setitem (col_name c) c' {| index := idx; columns := pre ++ c :: t |}
  = {| index := idx; columns := pre ++ c' :: t |}.
Proof.
  intros Hnd Hname. destruct (NoDup_middle pre t c Hnd) as [Hpre Ht].
  unfold setitem. cbn [index columns].
  assert (Hex : existsb (has_name (col_name c)) (pre ++ c :: t) = true).
  { apply existsb_exists. exists c. split; [apply in_elt |].
    unfold has_name. apply String.eqb_refl. }
  rewrite Hex. f_equal. rewrite map_app. cbn [map].
  rewrite !replace_absent by assumption.
  unfold has_name. rewrite String.eqb_refl.
  destruct c' as [k' d' vs']. cbn in *. subst k'. reflexivity.
Qed.

Lemma NoDup_middle_swap (pre t : list Series) (c c' : Series) :
  col_name c' = col_name c ->
  NoDup (map col_name (pre ++ c :: t)) ->
  NoDup (map col_name ((pre ++ [c']) ++ t)).
Proof.
  intros Hname. rewrite <- app_assoc. cbn [app].
  rewrite !map_app. cbn [map]. rewrite Hname. auto.
Qed.

(** *** The three steps of lines 117 and 118 *)

(** [fillna] over the means of a block of numeric columns. *)
Lemma fillna_block (idx : list nat) (todo : list Series) :
  forall pre,
    NoDup (map col_name (pre ++ todo)) ->
    Forall (fun c => is_number (col_dtype c) = true) todo ->
    fillna (map (fun c => (col_name c, series_mean (col_values c))) todo)
           {| index := idx; columns := pre ++ todo |}
    = bind (fill_columns todo)
           (fun r => ret {| index := idx; columns := pre ++ r |}).
Proof.
  induction todo as [| c t IH]; intros pre Hnd Hnum.
  - reflexivity.
  - inversion Hnum as [| ? ? Hc Ht]; subst.
    cbn [map fillna fill_columns]. rewrite Hc. unfold fill_series.
    destruct (series_mean (col_values c)) as [q |].
    + cbn [columns].
      rewrite (find_middle pre t c (proj1 (NoDup_middle pre t c Hnd))).
      destruct (series_fillna q c) as [e | c'] eqn:Hfill; [reflexivity |].
      cbn [bind]. destruct (series_fillna_shape q c c' Hfill) as [Hname _].
      rewrite (setitem_middle idx pre t c c' Hnd Hname).
      replace (pre ++ c' :: t)%list with ((pre ++ [c']) ++ t)%list
        by (rewrite <- app_assoc; reflexivity).
      rewrite IH; [| apply (NoDup_middle_swap pre t c c' Hname Hnd)
                   | exact Ht].
      destruct (fill_columns t); cbn [bind]; [reflexivity |].
      rewrite <- app_assoc. reflexivity.
    + cbn [bind]. replace (pre ++ c :: t)%list with ((pre ++ [c]) ++ t)%list
        by (rewrite <- app_assoc; reflexivity).
      rewrite IH; [| rewrite <- app_assoc; exact Hnd | exact Ht].
      destruct (fill_columns t); cbn [bind]; [reflexivity |].
      rewrite <- app_assoc. reflexivity.
Qed.

Lemma fill_columns_error (cs : list Series) (e : Exception) :
  fill_columns (filter (fun c => is_number (col_dtype c)) cs) = inl e ->
  fill_columns cs = inl e.
Proof.
  induction cs as [| c cs IH]; cbn [filter fill_columns]; [discriminate |].
  destruct (is_number (col_dtype c)) eqn:Hc.
  - cbn [fill_columns]. rewrite Hc.
    destruct (fill_series c) as [e' | c']; cbn [bind]; [auto |].
    destruct (fill_columns (filter _ cs)) as [e' | r];
      cbn [bind]; [| discriminate].
    intros H. rewrite (IH H). reflexivity.
  - cbn [bind]. intros H. rewrite (IH H). reflexivity.
Qed.

(** The assignment of the filled block back into the frame. *)
Lemma setitem_block (idx : list nat) (cs : list Series) :
  forall pre r,
    NoDup (map col_name (pre ++ cs)) ->
    fill_columns (filter (fun c => is_number (col_dtype c)) cs) = ret r ->
    exists cs',
      fill_columns cs = ret cs'
      /\ fold_left (fun acc ks => setitem (fst ks) (snd ks) acc)
                   (combine (map col_name
                               (filter (fun c => is_number (col_dtype c)) cs))
                            r)
                   {| index := idx; columns := pre ++ cs |}
         = {| index := idx; columns := pre ++ cs' |}.
Proof.
  induction cs as [| c cs IH]; intros pre r Hnd Hr.
  - exists []. split; reflexivity.
  - cbn [filter fill_columns] in *.
    destruct (is_number (col_dtype c)) eqn:Hc.
    + cbn [fill_columns map] in *. rewrite Hc in Hr.
      destruct (fill_series c) as [e | c'] eqn:Hfill; [discriminate |].
      cbn [bind] in *.
      destruct (fill_columns (filter _ cs)) as [e | r'] eqn:Hr';
        [discriminate |].
      cbn [bind] in Hr. injection Hr as <-.
      destruct (fill_series_shape c c' Hfill) as [Hname _].
      destruct (IH (pre ++ [c'])%list r'
                   (NoDup_middle_swap pre cs c c' Hname Hnd) eq_refl)
        as [cs' [Hcs' Hfold]].
      exists (c' :: cs'). rewrite Hcs'. split; [reflexivity |].
      cbn [combine fold_left fst snd].
      rewrite (setitem_middle idx pre cs c c' Hnd Hname).
      replace (pre ++ c' :: cs)%list with ((pre ++ [c']) ++ cs)%list
        by (rewrite <- app_assoc; reflexivity).
      rewrite Hfold, <- app_assoc. reflexivity.
    + cbn [bind] in *.
      assert (Hnd' : NoDup (map col_name ((pre ++ [c]) ++ cs)))
        by (rewrite <- app_assoc; exact Hnd).
      destruct (IH (pre ++ [c])%list r Hnd' Hr) as [cs' [Hcs' Hfold]].
      exists (c :: cs'). rewrite Hcs'. split; [reflexivity |].
      replace (pre ++ c :: cs)%list with ((pre ++ [c]) ++ cs)%list
        by (rewrite <- app_assoc; reflexivity).
      rewrite Hfold, <- app_assoc. reflexivity.
Qed.

(** The block of numeric columns is filled and assigned back column by
    column. *)
Lemma fill_missing_values_by_columns (df : DataFrame)
  (Hlabels : unique_labels df) :
  fill_missing_values df
  = bind (fill_columns (columns df))
         (fun cs => ret {| index := index df; columns := cs |}).
Proof.
  unfold fill_missing_values, getitem.
  set (num := filter (fun c => is_number (col_dtype c)) (columns df)).
  assert (Hsel : getitem_columns
                   (column_names (select_dtypes is_number df)) (columns df)
                 = ret num).
  { unfold column_names, select_dtypes. cbn [columns]. fold num.
    apply (Selection.getitem_columns_own (columns df) Hlabels).
    intros c Hc. apply filter_In in Hc. apply Hc. }
  rewrite Hsel. cbn [bind ret]. unfold mean. cbn [columns].
  assert (Hnum : Forall (fun c => is_number (col_dtype c) = true) num).
  { apply Forall_forall. intros c Hc. apply filter_In in Hc. apply Hc. }
  assert (Hnd : NoDup (map col_name ([] ++ num))).
  { cbn [app]. unfold num. clear - Hlabels.
    unfold unique_labels, column_names in Hlabels.
    induction (columns df) as [| c cs IH]; cbn [filter map]; [constructor |].
    cbn [map] in Hlabels. apply NoDup_cons_iff in Hlabels.
    destruct Hlabels as [Hc Hcs].
    destruct (is_number (col_dtype c)); [| apply IH, Hcs].
    cbn [map]. constructor; [| apply IH, Hcs].
    intros Hin. apply Hc. apply in_map_iff in Hin.
    destruct Hin as [x [Hx Hin]]. apply filter_In in Hin.
    rewrite <- Hx. apply in_map. apply Hin. }
  pose proof (fillna_block (index df) num [] Hnd Hnum) as Hfill.
  cbn [app] in Hfill. rewrite Hfill.
  destruct (fill_columns num) as [e | r] eqn:Hr; cbn [bind].
  - rewrite (fill_columns_error (columns df) e Hr). reflexivity.
  - destruct (setitem_block (index df) (columns df) [] r Hlabels Hr)
      as [cs' [Hcs' Hfold]].
    rewrite Hcs'. cbn [bind]. unfold setitem_columns, column_names,
      select_dtypes. cbn [columns app] in *. fold num.
    destruct df as [idx cs]. cbn [index columns] in *.
    cbn [bind ret columns]. unfold num. cbn [columns].
    rewrite Hfold. reflexivity.
Qed.

(** X12: for a frame with distinct column labels, the three label-based
    steps of the fill button (select the numeric columns, fill them with
    their means, assign them back) are the column-wise fill: every numeric
    column is filled with its own mean, from left to right, every other
    column is kept, and the first column that cannot be filled decides the
    exception. *)
Theorem fill_missing_values_columnwise (df : DataFrame)
  (Hlabels : unique_labels df) :
  fill_missing_values df = fill_columnwise df.
Proof.
  unfold fill_columnwise.
  rewrite (fill_missing_values_by_columns df Hlabels).
  destruct (fill_columns (columns df)); reflexivity.
Qed.

Lemma fill_missing_values_columnwise_witness :
  fill_missing_values repeated_rows = fill_columnwise repeated_rows.
Proof.
  apply (fill_missing_values_columnwise repeated_rows).
  unfold unique_labels, column_names; simpl.
  repeat constructor; simpl; intuition discriminate.
Defined.

End Filling.

(** ** What the fill does, and when it raises *)

Module FillingFacts.
Import Pandas App Spec Columnwise Filling.

Lemma filled_no_missing (x : value) (vs : list value) :
  isna x = false ->
  existsb isna (map (fun y => if isna y then x else y) vs) = false.
Proof.
  intros Hx. induction vs as [| v vs IH]; simpl; [reflexivity |].
  rewrite IH. destruct (isna v) eqn:Hv; rewrite ?Hx, ?Hv; reflexivity.
Qed.

Lemma fill_nothing (x : value) (vs : list value) :
  existsb isna vs = false ->
  map (fun y => if isna y then x else y) vs = vs.
Proof.
  induction vs as [| v vs IH]; simpl; [reflexivity |].
  intros H. apply orb_false_iff in H. destruct H as [Hv Hvs].
  rewrite Hv, IH by exact Hvs. reflexivity.
Qed.

Lemma series_fillna_no_missing (q : Qc) (c : Series) :
  existsb isna (col_values c) = false -> series_fillna q c = ret c.
Proof.
  intros H. unfold series_fillna. rewrite H.
  destruct c as [k d vs]. cbn in *.
  destruct d; try reflexivity; rewrite fill_nothing by exact H; reflexivity.
Qed.

Lemma series_fillna_result (q : Qc) (c c' : Series) :
  series_fillna q c = ret c' ->
  c' = c \/ existsb isna (col_values c') = false.
Proof.
  unfold series_fillna, ret. intros H.
  destruct (col_dtype c);
    try (injection H as <-; left; reflexivity);
    try (injection H as <-; right; cbn; apply filled_no_missing;
         reflexivity).
  destruct (existsb isna (col_values c)).
  - destruct (is_integral q); [| discriminate].
    injection H as <-. right. cbn. apply filled_no_missing. reflexivity.
  - injection H as <-. left. reflexivity.
Qed.

Lemma fill_series_again (c c' : Series) :
  fill_series c = ret c' -> fill_series c' = ret c'.
Proof.
  intros H. assert (H' := H). unfold fill_series in H'.
  destruct (series_mean (col_values c)) as [q |].
  - destruct (series_fillna_result q c c' H') as [-> | Hnone];
      [exact H |].
    unfold fill_series. destruct (series_mean (col_values c'));
      [apply series_fillna_no_missing; exact Hnone | reflexivity].
  - unfold ret in H'. injection H' as <-. exact H.
Qed.

(** The columns of a successful column-wise fill, one by one. *)
Lemma fill_columns_each (cs : list Series) :
  forall cs',
    fill_columns cs = ret cs' ->
    Forall2 (fun c c' => if is_number (col_dtype c)
                         then fill_series c = ret c' else c' = c) cs cs'.
Proof.
  induction cs as [| c cs IH]; intros cs' H; cbn [fill_columns] in H.
  - unfold ret in H. injection H as <-. constructor.
  - destruct (is_number (col_dtype c)) eqn:Hc.
    + destruct (fill_series c) as [e | c0] eqn:Hf; [discriminate |].
      cbn [bind] in H. destruct (fill_columns cs) as [e | r];
        [discriminate |].
      cbn [bind] in H. unfold ret in H. injection H as <-.
      constructor; [rewrite Hc; exact Hf | apply IH; reflexivity].
    + cbn [bind ret] in H. destruct (fill_columns cs) as [e | r];
        [discriminate |].
      cbn [bind] in H. unfold ret in H. injection H as <-.
      constructor; [rewrite Hc; reflexivity | apply IH; reflexivity].
Qed.

Lemma fill_columns_shape (cs cs' : list Series) :
  fill_columns cs = ret cs' ->
  map col_name cs' = map col_name cs
  /\ map col_dtype cs' = map col_dtype cs
  /\ map (fun c => List.length (col_values c)) cs'
     = map (fun c => List.length (col_values c)) cs.
Proof.
  intros H. apply fill_columns_each in H.
  induction H as [| c c' cs cs' Hc _ IH]; [repeat split |].
  destruct IH as [IH1 [IH2 IH3]]. cbn [map].
  assert (Hs : col_name c' = col_name c /\ col_dtype c' = col_dtype c
               /\ List.length (col_values c')
                  = List.length (col_values c)).
  { destruct (is_number (col_dtype c)); [apply fill_series_shape, Hc |].
    subst c'. repeat split. }
  destruct Hs as [-> [-> ->]]. rewrite IH1, IH2, IH3. repeat split.
Qed.

Lemma fill_columns_again (cs cs' : list Series) :
  fill_columns cs = ret cs' -> fill_columns cs' = ret cs'.
Proof.
  intros H. apply fill_columns_each in H.
  induction H as [| c c' cs cs' Hc _ IH]; [reflexivity |].
  cbn [fill_columns]. rewrite IH.
  destruct (is_number (col_dtype c)) eqn:Hnum.
  - destruct (fill_series_shape c c' Hc) as [_ [Hd _]].
    rewrite Hd, Hnum, (fill_series_again c c' Hc). reflexivity.
  - subst c'. rewrite Hnum. reflexivity.
Qed.

(** X13: filling is idempotent.  For a frame with distinct column labels,
    when the fill returns, a second fill of its result returns the same
    frame. *)
Theorem fill_missing_values_idempotent (df df2 : DataFrame)
  (Hlabels : unique_labels df)
  (Hfill : fill_missing_values df = ret df2) :
  fill_missing_values df2 = ret df2.
Proof.
  rewrite (Filling.fill_missing_values_by_columns df Hlabels) in Hfill.
  destruct (fill_columns (columns df)) as [e | cs'] eqn:Hcs;
    [discriminate |].
  cbn [bind] in Hfill. unfold ret in Hfill. injection Hfill as <-.
  rewrite Filling.fill_missing_values_by_columns.
  - cbn [columns index].
    rewrite (fill_columns_again _ _ Hcs). reflexivity.
  - unfold unique_labels, column_names. cbn [columns].
    rewrite (proj1 (fill_columns_shape _ _ Hcs)). exact Hlabels.
Qed.

Lemma fill_missing_values_idempotent_witness :
  let df := {| index := [0; 1; 2]%nat;
               columns :=
                 [ {| col_name := "a"; col_dtype := Int64;
                      col_values := [VInt 1; VInt 2; VInt 1] |};
                   {| col_name := "b"; col_dtype := Int64;
                      col_values := [NA; VInt 5; VInt 5] |} ] |} in
  let df2 := {| index := [0; 1; 2]%nat;
                columns :=
                  [ {| col_name := "a"; col_dtype := Int64;
                       col_values := [VInt 1; VInt 2; VInt 1] |};
                    {| col_name := "b"; col_dtype := Int64;
                       col_values := [VInt 5; VInt 5; VInt 5] |} ] |} in
  fill_missing_values df = ret df2 /\ fill_missing_values df2 = ret df2.
Proof.
  intros df df2.
  assert (Hlabels : unique_labels df).
  { unfold unique_labels, column_names; simpl.
    repeat constructor; simpl; intuition discriminate. }
  assert (Hfill : fill_missing_values df = ret df2) by reflexivity.
  split; [exact Hfill |].
  exact (fill_missing_values_idempotent df df2 Hlabels Hfill).
Defined.

(** *** When the fill raises *)

Lemma fill_series_raises (c : Series) :
  (exists e, fill_series c = inl e) <-> fractional_gap c = true.
Proof.
  unfold fill_series, fractional_gap, series_fillna, ret, raise.
  destruct (series_mean (col_values c)) as [q |].
  - destruct (col_dtype c);
      try (split; [intros [e He]; discriminate | discriminate]).
    destruct (existsb isna (col_values c)); cbn [andb].
    + destruct (is_integral q); cbn [negb].
      * split; [intros [e He]; discriminate | discriminate].
      * split; [reflexivity | intros _; eexists; reflexivity].
    + split; [intros [e He]; discriminate | discriminate].
  - destruct (col_dtype c);
      (split; [intros [e He]; discriminate | discriminate]).
Qed.

Lemma fill_series_exception (c : Series) (e : Exception) :
  fill_series c = inl e -> exc_type e = "TypeError".
Proof.
  unfold fill_series, series_fillna, ret, raise.
  destruct (series_mean (col_values c)) as [q |]; [| discriminate].
  destruct (col_dtype c); try discriminate.
  destruct (existsb isna (col_values c)); [| discriminate].
  destruct (is_integral q); [discriminate |].
  intros H. injection H as <-. reflexivity.
Qed.

Lemma fractional_gap_number (c : Series) :
  fractional_gap c = true -> is_number (col_dtype c) = true.
Proof.
  unfold fractional_gap. destruct (col_dtype c); try discriminate.
  reflexivity.
Qed.

Lemma fill_columns_raises (cs : list Series) :
  (exists e, fill_columns cs = inl e)
  <-> exists c, In c cs /\ fractional_gap c = true.
Proof.
  induction cs as [| c cs IH]; cbn [fill_columns].
  - split; [intros [e He]; discriminate | intros [c [[] _]]].
  - split.
    + intros [e He].
      destruct (is_number (col_dtype c)) eqn:Hc.
      * destruct (fill_series c) as [e0 | c0] eqn:Hf.
        -- exists c. split; [left; reflexivity |].
           apply fill_series_raises. exists e0. exact Hf.
        -- cbn [bind] in He.
           destruct (fill_columns cs) as [e1 | r]; [| discriminate].
           destruct (proj1 IH (ex_intro _ e1 eq_refl)) as [x [Hx Hg]].
           exists x. split; [right; exact Hx | exact Hg].
      * cbn [bind ret] in He.
        destruct (fill_columns cs) as [e1 | r]; [| discriminate].
        destruct (proj1 IH (ex_intro _ e1 eq_refl)) as [x [Hx Hg]].
        exists x. split; [right; exact Hx | exact Hg].
    + intros [x [[<- | Hx] Hg]].
      * rewrite (fractional_gap_number _ Hg).
        destruct (proj2 (fill_series_raises c) Hg) as [e He].
        rewrite He. exists e. reflexivity.
      * destruct (proj2 IH (ex_intro _ x (conj Hx Hg))) as [e He].
        rewrite He.
        destruct (if is_number (col_dtype c) then fill_series c else ret c)
          as [e0 | c0]; [exists e0 | exists e]; reflexivity.
Qed.

Lemma fill_columns_exception (cs : list Series) (e : Exception) :
  fill_columns cs = inl e -> exc_type e = "TypeError".
Proof.
  induction cs as [| c cs IH]; cbn [fill_columns]; [discriminate |].
  destruct (is_number (col_dtype c)).
  - destruct (fill_series c) as [e0 | c0] eqn:Hf; cbn [bind].
    + intros H. injection H as <-. apply (fill_series_exception c), Hf.
    + destruct (fill_columns cs) as [e1 | r]; cbn [bind];
        [| discriminate].
      intros H. injection H as <-. apply IH. reflexivity.
  - cbn [bind ret]. destruct (fill_columns cs) as [e1 | r]; cbn [bind];
      [| discriminate].
    intros H. injection H as <-. apply IH. reflexivity.
Qed.

(** X14: for a frame with distinct column labels whose nullable integer
    columns hold small integers, the fill raises exactly when some nullable
    integer column has a missing cell and numbers whose mean is not a whole
    number; the exception is then a [TypeError], and in every other case the
    fill returns a frame. *)
Theorem fill_missing_values_raises_iff (df : DataFrame)
  (Hlabels : unique_labels df) (Hsmall : small_integers df) :
  ((exists e, fill_missing_values df = inl e)
   <-> exists c, In c (columns df) /\ fractional_gap c = true)
  /\ (forall e, fill_missing_values df = inl e -> exc_type e = "TypeError")
  /\ ((forall c, In c (columns df) -> fractional_gap c = false) ->
      exists df2, fill_missing_values df = ret df2).
Proof.
  rewrite (Filling.fill_missing_values_by_columns df Hlabels).
  pose proof (fill_columns_raises (columns df)) as Hiff.
  split; [| split].
  - rewrite <- Hiff. split; intros [e He].
    + destruct (fill_columns (columns df)) as [e0 | r];
        [exists e0; reflexivity | discriminate].
    + rewrite He. exists e. reflexivity.
  - intros e He.
    destruct (fill_columns (columns df)) as [e0 | r] eqn:Hr;
      [| discriminate].
    cbn [bind] in He. injection He as <-.
    apply (fill_columns_exception (columns df) e0 Hr).
  - intros Hnone.
    destruct (fill_columns (columns df)) as [e0 | r] eqn:Hr;
      [| eexists; reflexivity].
    destruct (proj1 Hiff (ex_intro _ e0 eq_refl)) as [c [Hc Hg]].
    rewrite (Hnone c Hc) in Hg. discriminate.
Qed.

Lemma fill_missing_values_raises_iff_witness :
  unique_labels fractional_loaded
  /\ small_integers fractional_loaded
  /\ (exists c, In c (columns fractional_loaded) /\ fractional_gap c = true)
  /\ (exists e, fill_missing_values fractional_loaded = inl e).
Proof.
  assert (Hlabels : unique_labels fractional_loaded).
  { unfold unique_labels, column_names; simpl.
    repeat constructor; simpl; intuition discriminate. }
  assert (Hsmall : small_integers fractional_loaded).
  { intros c [<- | [<- | []]] Hd; [| discriminate].
    split; [| reflexivity].
    intros v Hv. cbn in Hv.
    repeat (destruct Hv as [<- | Hv]; [cbn; eauto |]). destruct Hv. }
  assert (Hgap : exists c, In c (columns fractional_loaded)
                           /\ fractional_gap c = true).
  { eexists. split; [left; reflexivity | reflexivity]. }
  split; [exact Hlabels |]. split; [exact Hsmall |]. split; [exact Hgap |].
  exact (proj2 (proj1 (fill_missing_values_raises_iff
                         fractional_loaded Hlabels Hsmall)) Hgap).
Defined.



End FillingFacts.

(** ** The run of the script over the uploads *)

Module Runs.
Import Pandas App Spec Columnwise.


Lemma andthen_raises {A B : Type} (m : Run A) (k : A -> Run B)
  (ev : list Event) (e : Exception) :
  m = (ev, inl e) -> andthen m k = (ev, inl e).
Proof. intros ->. reflexivity. Qed.

Lemma remove_duplicates_button_returns (df : DataFrame) :
  snd (remove_duplicates_button df) = ret (drop_duplicates df).
Proof. reflexivity. Qed.


Lemma cleaning_returns (ctl : Controls) (df : DataFrame) :
  enable_cleaning ctl = false \/ fill_missing ctl = false ->
  exists df', snd (cleaning ctl df) = ret df'.
Proof.
  intros H. unfold cleaning.
  destruct (enable_cleaning ctl); [| eexists; reflexivity].
  destruct H as [H | H]; [discriminate |]. rewrite H.
  destruct (remove_duplicates ctl); eexists; reflexivity.
Qed.





(** X18: for uploads with distinct names, whose widgets therefore do not
    collide, the run over the uploads returns exactly when the run of every
    upload does; it then shows the events of the uploads in upload order,
    each as [process_file] shows them for that upload alone, and the closing
    message last. *)
Theorem main_returns_iff (E : Engine) (ui : string -> Controls)
  (uploaded_files : list File)
  (Hnames : NoDup (map name uploaded_files)) :
  (snd (main E ui uploaded_files) = ret tt
   <-> forall file, In file uploaded_files ->
         snd (process_file E file (ui (name file))) = ret tt)
  /\ (snd (main E ui uploaded_files) = ret tt ->
      main E ui uploaded_files
      = ((events_of E ui uploaded_files ++ [closing])%list, ret tt)).
Proof.
  assert (Hruns : forall files,
             (snd (process_files E ui files) = ret tt
              <-> forall file, In file files ->
                    snd (process_file E file (ui (name file))) = ret tt)
             /\ (snd (process_files E ui files) = ret tt ->
                 process_files E ui files
                 = (events_of E ui files, ret tt))).
  { induction files as [| f files [IHiff IHev]]; cbn [process_files].
    - split; [split; [intros _ x [] | reflexivity] | reflexivity].
    - unfold events_of. cbn [flat_map]. fold (events_of E ui files).
      destruct (process_file E f (ui (name f))) as [ev [e | []]] eqn:Hf.
      + split; [split |]; cbn [andthen snd]; try discriminate.
        intros H. specialize (H f (or_introl eq_refl)).
        rewrite Hf in H. discriminate.
      + cbn [andthen fst]. destruct (process_files E ui files)
          as [ev' r'] eqn:Hfs. cbn [snd] in *. split; [split |].
        * intros Hr x [<- | Hx]; [rewrite Hf; reflexivity |].
          apply (proj1 IHiff Hr x Hx).
        * intros H. apply IHiff. intros x Hx. apply H. right. exact Hx.
        * intros Hr. specialize (IHev Hr). injection IHev as -> ->.
          reflexivity. }
  destruct (Hruns uploaded_files) as [Hiff Hev].
  unfold main.
  destruct (process_files E ui uploaded_files) as [ev [e | []]] eqn:Hfs;
    cbn [snd andthen] in *.
  - split; [split; [discriminate |] | discriminate].
    intros H. apply Hiff in H. discriminate.
  - split; [split; [intros _; apply Hiff; reflexivity | reflexivity] |].
    intros _. specialize (Hev eq_refl). injection Hev as ->. reflexivity.
Qed.

Lemma main_returns_iff_witness :
  NoDup (map name [upload "x.csv" scenario_csv; upload "data.txt" gap_csv])
  /\ main text_engine (click_in "x.csv" (press_convert CSV))
          [upload "x.csv" scenario_csv; upload "data.txt" gap_csv]
     = ([st_download_button "⬇ Download x.csv as CSV" scenario_csv
                            "x.csv" "text/csv";
         st_error (load_error_message
                     (upload "data.txt" gap_csv)
                     {| exc_type := "ImportError";
                        exc_msg := missing_openpyxl |});
         closing],
        ret tt).
Proof.
  assert (Hnames : NoDup (map name [upload "x.csv" scenario_csv;
                                    upload "data.txt" gap_csv])).
  { simpl. repeat constructor; simpl; intuition discriminate. }
  split; [exact Hnames |].
  apply (proj2 (main_returns_iff
                  text_engine (click_in "x.csv" (press_convert CSV))
                  [upload "x.csv" scenario_csv; upload "data.txt" gap_csv]
                  Hnames)).
  reflexivity.
Defined.

End Runs.

(** ** The types of a loaded frame *)

Module Typing.
Import Pandas App Spec Columnwise.

Lemma to_Int64_typed (v : value) : typed_cell Int64 (to_Int64 v).
Proof.
  destruct v as [z | q | b | s | |]; cbn [to_Int64 typed_cell];
    try (left; reflexivity).
  - right. exists z. reflexivity.
  - destruct (is_integral q); [right; eexists; reflexivity | left; reflexivity].
Qed.

Lemma to_Float64_typed (v : value) : typed_cell Float64 (to_Float64 v).
Proof.
  destruct v as [z | q | b | s | |]; cbn [to_Float64 typed_cell];
    try (left; reflexivity); right; eexists; reflexivity.
Qed.

Lemma astype_length (d : dtype) (vs : list value) :
  List.length (astype d vs) = List.length vs.
Proof. destruct d; cbn; rewrite ?length_map; reflexivity. Qed.

Lemma inferred_dtype_nullable (d : dtype) (vs : list value) :
  inferred_dtype d vs <> int64 /\ inferred_dtype d vs <> float64
  /\ inferred_dtype d vs <> bool_.
Proof.
  unfold inferred_dtype.
  destruct d; repeat split;
    repeat match goal with
           | |- context [if ?b then _ else _] => destruct b
           end; discriminate.
Qed.

(** A column after [convert_dtypes] and the loop of lines 82 and 83. *)
Lemma loaded_column (c : Series) :
  let c' := stringify_series (convert_series c) in
  col_name c' = col_name c
  /\ List.length (col_values c') = List.length (col_values c)
  /\ col_dtype c' <> int64 /\ col_dtype c' <> float64
  /\ col_dtype c' <> bool_
  /\ forall v, In v (col_values c') -> typed_cell (col_dtype c') v.
Proof.
  cbn zeta. unfold stringify_series, convert_series. cbn [col_dtype].
  set (d := inferred_dtype (col_dtype c) (col_values c)).
  destruct (inferred_dtype_nullable (col_dtype c) (col_values c))
    as [H1 [H2 H3]]. fold d in H1, H2, H3.
  destruct (is_object d) eqn:Hobj.
  - cbn [astype_str col_name col_dtype col_values].
    rewrite length_map, astype_length.
    repeat split; try discriminate.
    intros v Hv. apply in_map_iff in Hv. destruct Hv as [v0 [<- _]].
    eexists. reflexivity.
  - cbn [col_name col_dtype col_values]. rewrite astype_length.
    repeat split; try assumption.
    intros v Hv. destruct d; cbn [typed_cell]; try exact I;
      try discriminate; cbn [astype] in Hv;
      apply in_map_iff in Hv; destruct Hv as [v0 [<- _]].
    + apply to_Int64_typed.
    + apply to_Float64_typed.
Qed.

(** X19: the frame a file loads as.  For a frame of the reader with
    distinct column labels, the normalisation of lines 81 to 83 keeps the row
    labels, the column labels and the number of cells of every column; no
    column keeps a NumPy integer, float or boolean type; a nullable integer
    column holds integers and missing cells only, a nullable float column
    floats and missing cells only, and an [object] column strings only. *)
Theorem normalize_typed (df : DataFrame) (Hlabels : unique_labels df) :
  index (normalize df) = index df
  /\ column_names (normalize df) = column_names df
  /\ (rectangular df -> rectangular (normalize df))
  /\ forall c, In c (columns (normalize df)) ->
       col_dtype c <> int64 /\ col_dtype c <> float64
       /\ col_dtype c <> bool_
       /\ forall v, In v (col_values c) -> typed_cell (col_dtype c) v.
Proof.
  pose proof (Coercion.normalize_columns df Hlabels) as Hn.
  split; [rewrite Hn; reflexivity |].
  split; [apply Coercion.normalize_names, Hlabels |].
  split.
  - unfold rectangular, nrows. rewrite Hn. cbn [index columns].
    unfold convert_dtypes. cbn [columns]. rewrite map_map.
    intros Hwf. rewrite Forall_forall in *. intros c Hc.
    apply in_map_iff in Hc. destruct Hc as [c0 [<- Hc0]].
    destruct (loaded_column c0) as [_ [Hlen _]]. rewrite Hlen.
    apply Hwf, Hc0.
  - intros c Hc. rewrite Hn in Hc. cbn [columns] in Hc.
    unfold convert_dtypes in Hc. cbn [columns] in Hc.
    rewrite map_map in Hc.
    apply in_map_iff in Hc. destruct Hc as [c0 [<- Hc0]].
    destruct (loaded_column c0) as [_ [_ H]]. exact H.
Qed.

Lemma normalize_typed_witness :
  unique_labels mixed_sheet
  /\ index (normalize mixed_sheet) = index mixed_sheet.
Proof.
  assert (Hlabels : unique_labels mixed_sheet).
  { unfold unique_labels, column_names; simpl.
    repeat constructor; simpl; intuition discriminate. }
  split; [exact Hlabels |].
  exact (proj1 (normalize_typed mixed_sheet Hlabels)).
Defined.

End Typing.

(** ** The displayed size and the preview *)

Module Shown.
Import Pandas App Spec Display.



Lemma transpose_firstn (k : nat) :
  forall (n : nat) (cols : list (list value)),
    Forall (fun c => List.length c = n) cols ->
    transpose (Nat.min k n) (map (firstn k) cols)
    = firstn k (transpose n cols).
Proof.
  induction k as [| k IH]; intros [| n] cols Hcols; try reflexivity.
  cbn [Nat.min transpose firstn]. f_equal.
  - rewrite map_map. apply map_ext_in. intros c Hc.
    rewrite Forall_forall in Hcols. apply Hcols in Hc.
    destruct c; [discriminate | reflexivity].
  - rewrite <- IH.
    + f_equal. rewrite !map_map. apply map_ext_in. intros c Hc.
      rewrite Forall_forall in Hcols. apply Hcols in Hc.
      destruct c; [discriminate | reflexivity].
    + rewrite Forall_forall in *. intros c Hc.
      apply in_map_iff in Hc. destruct Hc as [c0 [<- Hc0]].
      apply Hcols in Hc0. destruct c0; simpl in *; [discriminate | lia].
Qed.

(** X21: the preview [df.head()] of a frame with one cell per row shows its
    first five rows, in order and with their labels, under the same column
    labels; a frame of at most five rows is shown whole. *)
Theorem head_first_rows (df : DataFrame) (Hwf : rectangular df) :
  rows (head df) = firstn 5 (rows df)
  /\ index (head df) = firstn 5 (index df)
  /\ nrows (head df) = Nat.min 5 (nrows df)
  /\ column_names (head df) = column_names df
  /\ ((nrows df <= 5)%nat -> head df = df).
Proof.
  split; [| split; [reflexivity | split; [| split]]].
  - unfold rows, head, nrows. cbn [index columns].
    rewrite length_firstn, map_map.
    rewrite <- (map_map col_values (firstn 5)).
    apply transpose_firstn.
    unfold rectangular, nrows in Hwf. rewrite Forall_forall in *.
    intros c Hc. apply in_map_iff in Hc. destruct Hc as [c0 [<- Hc0]].
    apply Hwf, Hc0.
  - unfold nrows, head. cbn [index]. apply length_firstn.
  - unfold column_names, head. cbn [columns]. rewrite map_map. reflexivity.
  - intros Hle. destruct df as [idx cs]. unfold head, nrows in *.
    cbn [index columns] in *. f_equal.
    + apply firstn_all2. exact Hle.
    + unfold rectangular, nrows in Hwf. cbn [index columns] in Hwf.
      induction Hwf as [| c cs Hc _ IH]; [reflexivity |].
      cbn [map]. f_equal; [| exact IH].
      destruct c as [k d vs].
      cbn [col_name col_dtype col_values] in *. f_equal.
      apply firstn_all2. lia.
Qed.

Lemma head_first_rows_witness :
  rectangular repeated_rows /\ head repeated_rows = repeated_rows.
Proof.
  assert (Hwf : rectangular repeated_rows) by (repeat constructor).
  split; [exact Hwf |].
  apply (proj2 (proj2 (proj2 (proj2 (head_first_rows repeated_rows Hwf))))).
  cbv. repeat constructor.
Defined.

End Shown.

(** ** The download *)

Module Download.
Import Pandas App Spec Columnwise.

Lemma downloads_app (ev ev' : list Event) :
  downloads (ev ++ ev') = (downloads ev ++ downloads ev')%list.
Proof.
  induction ev as [| e ev IH]; [reflexivity |].
  destruct e; cbn [app downloads]; rewrite IH; reflexivity.
Qed.

Lemma cleaning_no_download (ctl : Controls) (df : DataFrame) :
  downloads (fst (cleaning ctl df)) = [].
Proof.
  unfold cleaning, remove_duplicates_button, fill_missing_button.
  destruct (enable_cleaning ctl); [| reflexivity].
  destruct (remove_duplicates ctl), (fill_missing ctl); cbn;
    try reflexivity;
    match goal with
    | |- context [fill_missing_values ?d] =>
        destruct (fill_missing_values d); reflexivity
    end.
Qed.

Lemma transform_no_download (ctl : Controls) (df : DataFrame) :
  downloads (fst (transform ctl df)) = [].
Proof.
  unfold transform, andthen, lift.
  pose proof (cleaning_no_download ctl df) as Hc.
  destruct (cleaning ctl df) as [ev [e | df1]]; cbn [fst] in *;
    [exact Hc |].
  rewrite app_nil_r. exact Hc.
Qed.

(** X22: a run of [process_file] offers at most one download, and only the
    export of the file's own frame: either it offers none, or the file
    loaded, the cleaning and the selection returned a frame, Convert was
    pressed, the serialisation of that frame in the chosen format returned,
    and the one download carries exactly these bytes.  It offers none when
    the load fails or Convert is not pressed. *)
Theorem download_is_the_export (E : Engine) (file : File) (ctl : Controls) :
  (downloads (fst (process_file E file ctl)) = []
   \/ exists df df' data,
        load E file = ret df
        /\ snd (transform ctl df) = ret df'
        /\ convert ctl = true
        /\ match conversion_type ctl with
           | CSV => ret (to_csv df')
           | Excel => to_excel E df'
           end = ret data
        /\ downloads (fst (process_file E file ctl)) = [data]
        /\ snd (process_file E file ctl) = ret tt)
  /\ (convert ctl = false ->
      downloads (fst (process_file E file ctl)) = [])
  /\ (forall e, load E file = inl e ->
      downloads (fst (process_file E file ctl)) = []).
Proof.
  unfold process_file.
  destruct (load E file) as [e | df] eqn:Hload.
  { split; [left; reflexivity | split; reflexivity]. }
  pose proof (transform_no_download ctl df) as Ht.
  destruct (transform ctl df) as [ev [e | df']] eqn:Htr; cbn [fst] in Ht.
  { cbn [andthen fst]. split; [left; exact Ht | split; [intros _; exact Ht |]].
    discriminate. }
  cbn [andthen]. destruct (convert ctl) eqn:Hconv.
  - unfold convert_button, lift.
    destruct (match conversion_type ctl with
              | CSV => ret (to_csv df')
              | Excel => to_excel E df'
              end) as [e | data] eqn:Hdata.
    + cbn [andthen fst]. rewrite app_nil_r.
      split; [left; exact Ht | split; discriminate].
    + cbn [andthen emit fst snd]. rewrite downloads_app, Ht.
      split; [| split; discriminate].
      right. exists df, df', data. rewrite Htr. cbn [snd].
      repeat split; try reflexivity. exact Hdata.
  - cbn [done fst]. rewrite app_nil_r.
    split; [left; exact Ht | split; [intros _; exact Ht | discriminate]].
Qed.

End Download.

(** ** Type inference keeps the numbers *)

Module Numbers.
Import Pandas App Spec.

Lemma whole_number (q : Qc) :
  is_integral q = true -> Qc_of_Z (Qnum (this q)) = q.
Proof.
  unfold is_integral, Qc_of_Z. intros H. apply Pos.eqb_eq in H.
  apply Qc_is_canon. cbn [this Q2Qc]. rewrite Qred_correct.
  unfold Qeq, inject_Z. cbn [Qnum Qden]. rewrite H. reflexivity.
Qed.

Lemma is_int64_whole (v : value) : is_int64 v = true -> is_whole v = true.
Proof.
  destruct v as [z | q | b | s | |]; cbn [is_int64 is_whole];
    try discriminate; [reflexivity |].
  intros H. apply andb_true_iff in H. apply H.
Qed.

Lemma whole_cells_Int64 (vs : list value) :
  forallb is_int64 (present vs) = true ->
  numbers (map to_Int64 vs) = numbers vs.
Proof.
  induction vs as [| v vs IH]; [reflexivity |].
  unfold present. cbn [filter map numbers].
  destruct (isna v) eqn:Hna; cbn [negb]; fold (present vs).
  - intros H. destruct v; try discriminate; cbn [to_Int64 as_Qc];
      rewrite (IH H); reflexivity.
  - cbn [forallb]. intros H. apply andb_true_iff in H.
    destruct H as [Hv H]. pose proof (is_int64_whole v Hv) as Hw.
    destruct v as [z | q | b | s | |]; try discriminate;
      cbn [to_Int64 as_Qc].
    + rewrite (IH H). reflexivity.
    + cbn [is_whole] in Hw. rewrite Hw. cbn [as_Qc].
      rewrite (whole_number q Hw), (IH H). reflexivity.
Qed.

Lemma cells_Float64 (vs : list value) :
  forallb (fun v => is_num v || isna v) vs = true ->
  numbers (map to_Float64 vs) = numbers vs.
Proof.
  induction vs as [| v vs IH]; [reflexivity |].
  cbn [forallb map numbers]. intros H.
  apply andb_true_iff in H. destruct H as [Hv H].
  destruct v as [z | q | b | s | |]; cbn [to_Float64 as_Qc] in *;
    try discriminate; rewrite (IH H); reflexivity.
Qed.

(** X23: type inference keeps the numbers of a numeric column.  For a
    column the reader typed as integers or floats (its cells are numbers or
    missing, and 64-bit integers in an integer column), the column after
    [convert_dtypes] has the same numbers in the same order, whole floats
    having become integers; its type is the nullable integer type when all
    its numbers are whole and in the 64-bit range, and the nullable float
    type otherwise. *)
Theorem convert_dtypes_keeps_numbers (c : Series)
  (Hd : col_dtype c = int64 \/ col_dtype c = float64)
  (Hint : col_dtype c = int64 ->
          forallb is_int64 (present (col_values c)) = true)
  (Hcells : forallb (fun v => is_num v || isna v) (col_values c) = true) :
  numbers (col_values (convert_series c)) = numbers (col_values c)
  /\ col_dtype (convert_series c)
     = (if forallb is_int64 (present (col_values c))
        then Int64 else Float64).
Proof.
  unfold convert_series. cbn [col_values col_dtype].
  destruct Hd as [Hd | Hd]; rewrite Hd; cbn [inferred_dtype].
  - rewrite (Hint Hd). cbn [astype].
    split; [apply whole_cells_Int64, Hint, Hd | reflexivity].
  - destruct (forallb is_int64 (present (col_values c))) eqn:Hw;
      cbn [astype].
    + split; [apply whole_cells_Int64, Hw | reflexivity].
    + split; [apply cells_Float64, Hcells | reflexivity].
Qed.

Lemma convert_dtypes_keeps_numbers_witness :
  let c := {| col_name := "b"; col_dtype := float64;
              col_values := [NaN; VFloat (Qc_of_Z 5); VFloat (Qc_of_Z 5)] |} in
  let big := {| col_name := "c"; col_dtype := float64;
                col_values := [VFloat (Qc_of_Z (10 ^ 30))] |} in
  (numbers (col_values (convert_series c)) = numbers (col_values c)
   /\ col_dtype (convert_series c) = Int64)
  /\ (numbers (col_values (convert_series big)) = numbers (col_values big)
      /\ col_dtype (convert_series big) = Float64).
Proof.
  intros c big. split.
  - apply (convert_dtypes_keeps_numbers c).
    + right. reflexivity.
    + intros _. reflexivity.
    + reflexivity.
  - apply (convert_dtypes_keeps_numbers big).
    + right. reflexivity.
    + discriminate.
    + reflexivity.
Defined.

End Numbers.
